(** * bilibili_api.show: ticketing client

    A shallow embedding of [bilibili_api/show.py] and the properties of
    its catalog reader, identity reader, click generator and order
    builder.

    Python values that come out of a response are dynamically typed, so
    they are kept as [json] values; the exceptions the interpreter raises
    on them ([KeyError], [TypeError]) are part of the model.  Network
    calls go through a transport oracle and are recorded in a call log. *)

From Stdlib Require Import ZArith Lia.
From stdpp Require Import base option list strings gmap.

Local Open Scope string_scope.
Local Open Scope list_scope.
Local Open Scope Z_scope.

(** ** Python values *)

(** A value of a parsed response.  A [dict] keeps its insertion order (it
    is iterated in that order), so it is an association list, read at the
    first binding of a key.  A [float] is only ever copied by this module
    and is kept as its literal. *)
#[warnings="-register-all"]
Inductive json : Type :=
| JNull
| JBool (b : bool)
| JInt (n : Z)
| JFloat (lit : string)
| JStr (s : string)
| JList (l : list json)
| JDict (d : list (string * json)).

(** The exceptions that can leave the module. *)
Inductive exn : Type :=
| KeyError (key : string)
| TypeError
| CredentialNoSessdataException
| ResponseCodeException (code : Z)
| NetworkException (msg : string).

Inductive result (A : Type) : Type :=
| Ok (a : A)
| Raise (e : exn).
Arguments Ok {A} a.
Arguments Raise {A} e.

Definition rbind {A B} (r : result A) (k : A → result B) : result B :=
  match r with
  | Ok a => k a
  | Raise e => Raise e
  end.

Declare Scope res_scope.
Delimit Scope res_scope with res.
Bind Scope res_scope with result.
Notation "x <- r ;; k" := (rbind r%res (fun x => k%res))
  (at level 100, r at next level, right associativity) : res_scope.

(** [d[key]] on an association list. *)
Fixpoint dict_get (key : string) (d : list (string * json)) : option json :=
  match d with
  | [] => None
  | (k, v) :: rest => if String.eqb k key then Some v else dict_get key rest
  end.

(** [v[key]] with a [str] key: a [dict] answers or raises [KeyError]; a
    list or a string wants an integer index, and the other values are
    not subscriptable: [TypeError]. *)
Definition getitem (v : json) (key : string) : result json :=
  match v with
  | JDict d =>
      match dict_get key d with
      | Some x => Ok x
      | None => Raise (KeyError key)
      end
  | _ => Raise TypeError
  end.

(** *** Strings

    A [str] is held as its UTF-8 bytes.  UTF-8 is self-synchronising, so
    one string occurs in another as a run of code points exactly when it
    does as a run of bytes. *)

Fixpoint str_contains (needle hay : string) : bool :=
  String.prefix needle hay ||
  match hay with
  | EmptyString => false
  | String _ rest => str_contains needle rest
  end.

(** A continuation byte of a multi-byte code point: [10xxxxxx]. *)
Definition is_continuation (c : Ascii.ascii) : bool :=
  let n := Ascii.N_of_ascii c in (128 <=? n)%N && (n <? 192)%N.

(** The leading continuation bytes of [s], and the code points after
    them. *)
Fixpoint utf8_split (s : string) : string * list string :=
  match s with
  | EmptyString => (EmptyString, [])
  | String c rest =>
      let '(pending, chars) := utf8_split rest in
      if is_continuation c then (String c pending, chars)
      else (EmptyString, String c pending :: chars)
  end.

(** The characters of a [str], one string each. *)
Definition str_chars (s : string) : list string :=
  let '(pending, chars) := utf8_split s in
  match pending with
  | EmptyString => chars
  | _ => pending :: chars
  end.

(** [for x in v]: the elements of a list, the keys of a [dict], the
    characters of a [str]; the other values are not iterable. *)
Definition py_iter (v : json) : result (list json) :=
  match v with
  | JList l => Ok l
  | JDict d => Ok (map (fun kv => JStr (fst kv)) d)
  | JStr s => Ok (map JStr (str_chars s))
  | _ => Raise TypeError
  end.

(** [v == s] for a [str] [s]: only an equal [str] is equal to it. *)
Definition eq_str (v : json) (s : string) : bool :=
  match v with
  | JStr t => String.eqb t s
  | _ => false
  end.

(** [s in v] for a [str] [s]: substring test on a [str], membership in a
    list, key membership in a [dict]; [TypeError] on the rest. *)
Definition str_in (s : string) (v : json) : result bool :=
  match v with
  | JStr t => Ok (str_contains s t)
  | JList l => Ok (existsb (fun x => eq_str x s) l)
  | JDict d => Ok (existsb (fun kv => String.eqb (fst kv) s) d)
  | _ => Raise TypeError
  end.

(** *** The standard library

    [random.randint(a, b)] returns an integer [N] with [a <= N <= b]; the
    argument [r] is the draw of the generator. *)
Definition randint (a b r : Z) : Z := a + r mod (b - a + 1).

(** ** The collaborators: credential, endpoint table, transport *)

(** Modelled from the spec: [Credential] of [utils.network] is not among
    the sources.  It holds the session-token material, and
    [raise_for_no_sessdata] fails fast when that material is absent. *)
Record Credential : Type := {
  sessdata : option string;
  bili_jct : option string
}.

Definition raise_for_no_sessdata (credential : Credential) : result unit :=
  match sessdata credential with
  | Some _ => Ok tt
  | None => Raise CredentialNoSessdataException
  end.

(** The entries of the endpoint table [API = get_api("show")] the module
    uses: [API["info"]["get"]], [API["info"]["buyer_info"]],
    [API["info"]["token"]] and [API["operate"]["order"]]. *)
Inductive endpoint : Type :=
| InfoGet
| InfoBuyerInfo
| InfoToken
| OperateOrder.

(** What an [Api] object holds when its [result] is awaited. *)
Record request : Type := {
  rq_api : endpoint;
  rq_params : gmap string json;
  rq_data : gmap string json;
  rq_credential : option Credential
}.

(** The transport answers a request, given the requests made before it,
    with the parsed response or with an exception. *)
Definition transport : Type := request → list request → result json.

(** ** The monad of the coroutines

    A coroutine runs on a world: the object it is a method of (the
    store) and the log of the round trips made so far.  An exception
    leaves the world as it was when it was raised. *)
Record world (S : Type) : Type := World {
  store : S;
  calls : list request
}.
Arguments World {S} store calls.
Arguments store {S} w.
Arguments calls {S} w.

Definition M (S A : Type) : Type := world S → result A * world S.

Definition ret {S A} (a : A) : M S A := fun w => (Ok a, w).

Definition bind {S A B} (c : M S A) (k : A → M S B) : M S B :=
  fun w =>
    match c w with
    | (Ok a, w') => k a w'
    | (Raise e, w') => (Raise e, w')
    end.

Declare Scope M_scope.
Delimit Scope M_scope with M.
Bind Scope M_scope with M.
Notation "x <- c ;; k" := (bind c%M (fun x => k%M))
  (at level 100, c at next level, right associativity) : M_scope.

(** A computation that touches neither the store nor the network. *)
Definition lift {S A} (r : result A) : M S A := fun w => (r, w).

(** [self.f]. *)
Definition attr {S A} (f : S → A) : M S A := fun w => (Ok (f (store w)), w).

(** [await Api(...).result]: one round trip, appended to the log. *)
Definition api_result {S} (net : transport) (rq : request) : M S json :=
  fun w => (net rq (calls w), World (store w) (calls w ++ [rq])).

(** ** The dataclasses

    A dataclass does not check the annotated types of its fields: a
    field holds whatever value it was given. *)

Module Ticket.
Record t : Type := make {
  id : json;
  price : json;
  desc : json;
  sale_start : json;
  sale_end : json
}.
End Ticket.

Module Session.
Record t : Type := make {
  id : json;
  start_time : json;
  formatted_time : json;
  ticket_list : list Ticket.t
}.

(** [sess_obj.ticket_list.append(ticket)]. *)
Definition append (sess_obj : t) (ticket : Ticket.t) : t :=
  make (id sess_obj) (start_time sess_obj) (formatted_time sess_obj)
       (ticket_list sess_obj ++ [ticket]).
End Session.

Module BuyerInfo.
Record t : Type := make {
  id : json;
  uid : json;
  account_channel : json;
  personal_id : json;
  name : json;
  id_card_front : json;
  id_card_back : json;
  is_default : json;
  tel : json;
  error_code : json;
  id_type : json;
  verify_status : json;
  accountId : json;
  isBuyerInfoVerified : json;
  isBuyerValid : json
}.

Definition required : list string :=
  ["id"; "uid"; "account_channel"; "personal_id"; "name"; "id_card_front";
   "id_card_back"; "is_default"; "tel"; "error_code"; "id_type";
   "verify_status"; "accountId"].

Definition defaulted : list string :=
  ["isBuyerInfoVerified"; "isBuyerValid"].

Definition fields : list string := required ++ defaulted.

(** A keyword argument without a default: its absence is a
    [TypeError]. *)
Definition kwarg (d : list (string * json)) (key : string) : result json :=
  match dict_get key d with
  | Some v => Ok v
  | None => Raise TypeError
  end.

Definition kwarg_default (d : list (string * json)) (key : string)
    (dflt : json) : json :=
  match dict_get key d with
  | Some v => v
  | None => dflt
  end.

(** The constructor called with the entries of [v] as its keyword
    arguments: [v] has to be a mapping, each of its keys the name of a
    field, and each field without a default among them. *)
Definition new (v : json) : result t :=
  match v with
  | JDict d =>
      if forallb (fun kv => existsb (String.eqb (fst kv)) fields) d then
        (a1 <- kwarg d "id" ;;
         a2 <- kwarg d "uid" ;;
         a3 <- kwarg d "account_channel" ;;
         a4 <- kwarg d "personal_id" ;;
         a5 <- kwarg d "name" ;;
         a6 <- kwarg d "id_card_front" ;;
         a7 <- kwarg d "id_card_back" ;;
         a8 <- kwarg d "is_default" ;;
         a9 <- kwarg d "tel" ;;
         a10 <- kwarg d "error_code" ;;
         a11 <- kwarg d "id_type" ;;
         a12 <- kwarg d "verify_status" ;;
         a13 <- kwarg d "accountId" ;;
         Ok (make a1 a2 a3 a4 a5 a6 a7 a8 a9 a10 a11 a12 a13
               (kwarg_default d "isBuyerInfoVerified" (JBool true))
               (kwarg_default d "isBuyerValid" (JBool true))))%res
      else Raise TypeError
  | _ => Raise TypeError
  end.

(** [b.__dict__]: the fields in declaration order. *)
Definition __dict__ (b : t) : list (string * json) :=
  [("id", id b); ("uid", uid b); ("account_channel", account_channel b);
   ("personal_id", personal_id b); ("name", name b);
   ("id_card_front", id_card_front b); ("id_card_back", id_card_back b);
   ("is_default", is_default b); ("tel", tel b);
   ("error_code", error_code b); ("id_type", id_type b);
   ("verify_status", verify_status b); ("accountId", accountId b);
   ("isBuyerInfoVerified", isBuyerInfoVerified b);
   ("isBuyerValid", isBuyerValid b)].

(** The field of a record by its name. *)
Definition field (b : t) (key : string) : option json :=
  dict_get key (__dict__ b).
End BuyerInfo.

(** ** Catalog reader *)

Definition get_project_info {S} (net : transport) (project_id : Z) : M S json :=
  api_result net
    {| rq_api := InfoGet;
       rq_params := {["id" := JInt project_id]};
       rq_data := ∅;
       rq_credential := None |}.

(** The inner loop of [get_available_sessions]:
    [for t in v["ticket_list"]: sess_obj.ticket_list.append(Ticket(...))]. *)
Fixpoint ticket_loop (ts : list json) (sess_obj : Session.t) : result Session.t :=
  match ts with
  | [] => Ok sess_obj
  | t :: rest =>
      (a1 <- getitem t "id" ;;
       a2 <- getitem t "price" ;;
       a3 <- getitem t "desc" ;;
       a4 <- getitem t "sale_start" ;;
       a5 <- getitem t "sale_end" ;;
       ticket_loop rest (Session.append sess_obj (Ticket.make a1 a2 a3 a4 a5)))%res
  end.

(** The outer loop: [for v in project_info["screen_list"]: ...
    rtn_list.append(sess_obj)]. *)
Fixpoint session_loop (vs : list json) (rtn_list : list Session.t)
    : result (list Session.t) :=
  match vs with
  | [] => Ok rtn_list
  | v :: rest =>
      (a1 <- getitem v "id" ;;
       a2 <- getitem v "start_time" ;;
       a3 <- getitem v "name" ;;
       tl <- getitem v "ticket_list" ;;
       ts <- py_iter tl ;;
       sess_obj <- ticket_loop ts (Session.make a1 a2 a3 []) ;;
       session_loop rest (rtn_list ++ [sess_obj]))%res
  end.

Definition get_available_sessions {S} (net : transport) (project_id : Z)
    : M S (list Session.t) :=
  (project_info <- get_project_info net project_id ;;
   lift (sl <- getitem project_info "screen_list" ;;
         vs <- py_iter sl ;;
         session_loop vs [])%res)%M.

(** ** Identity reader *)

Definition get_all_buyer_info {S} (net : transport) (credential : Credential)
    : M S json :=
  (_ <- lift (raise_for_no_sessdata credential) ;;
   api_result net
     {| rq_api := InfoBuyerInfo;
        rq_params := ∅;
        rq_data := ∅;
        rq_credential := Some credential |})%M.

(** The comprehension of [get_all_buyer_info_obj]: one [BuyerInfo] per
    [v] of [res["list"]], built from the entries of [v]. *)
Fixpoint buyer_loop (vs : list json) : result (list BuyerInfo.t) :=
  match vs with
  | [] => Ok []
  | v :: rest =>
      (b <- BuyerInfo.new v ;;
       bs <- buyer_loop rest ;;
       Ok (b :: bs))%res
  end.

Definition get_all_buyer_info_obj {S} (net : transport) (credential : Credential)
    : M S (list BuyerInfo.t) :=
  (res <- get_all_buyer_info net credential ;;
   lift (l <- getitem res "list" ;;
         vs <- py_iter l ;;
         buyer_loop vs)%res)%M.

(** ** Click generator

    [now_ms] is the reading [int(time.time() * 1000)] of the clock and
    [rx], [ry], [rd] are the three draws, in the order the code makes
    them. *)
Definition generate_clickPosition (rx ry now_ms rd : Z) : list (string * json) :=
  let x := randint 1320 1330 rx in
  let y := randint 880 890 ry in
  let origin_timestamp := now_ms in
  let now_timestamp := origin_timestamp + randint 5000 10000 rd in
  [("x", JInt x); ("y", JInt y);
   ("origin", JInt origin_timestamp); ("now", JInt now_timestamp)].

(** ** Order builder and submitter *)

(** What one order attempt reads from outside the program: the clock
    reading [int(time.time() * 1000)] of the header, the token of
    [get_deviceid("", True)], and the draws and the clock reading of
    [generate_clickPosition()]. *)
Record env : Type := {
  time_ms : Z;
  deviceid : string;
  click_rx : Z;
  click_ry : Z;
  click_time_ms : Z;
  click_rd : Z
}.

(** The first loop of [_get_create_order_payload]: [info] becomes the
    first element whose [module] is ["base_info"], and stays what it was
    when there is none. *)
Fixpoint find_base_info (elements : list json) (info : json) : result json :=
  match elements with
  | [] => Ok info
  | element :: rest =>
      (m <- getitem element "module" ;;
       if eq_str m "base_info" then Ok element
       else find_base_info rest info)%res
  end.

(** [A in content or B in content]. *)
Definition policy_line (content : json) : result bool :=
  (a <- str_in "一人一证" content ;;
   if a then Ok true else str_in "一单一证" content)%res.

(** The second loop with the statements after it: the payload returned
    from inside the loop at the first policy line, or the one returned
    after it. *)
Fixpoint detail_loop (json_dumps : json → string) (target_buyer : BuyerInfo.t)
    (header : gmap string json) (details : list json)
    : result (gmap string json) :=
  match details with
  | [] =>
      Ok (<["tel" := BuyerInfo.tel target_buyer]>
            (<["buyer" := BuyerInfo.name target_buyer]> header))
  | detail :: rest =>
      (content <- getitem detail "content" ;;
       hit <- policy_line content ;;
       if hit then
         Ok (<["buyer_info" :=
                 JStr (json_dumps (JList [JDict (BuyerInfo.__dict__ target_buyer)]))]>
               header)
       else detail_loop json_dumps target_buyer header rest)%res
  end.

Module OrderTicket.
Record t : Type := make {
  credential : Credential;
  target_buyer : BuyerInfo.t;
  project_id : Z;
  session : Session.t;
  ticket : Ticket.t
}.

Section methods.
Variable net : transport.
Variable json_dumps : json → string.
Variable ev : env.

Definition get_token : M t json :=
  (cred <- attr credential ;;
   _ <- lift (raise_for_no_sessdata cred) ;;
   pid <- attr project_id ;;
   screen_id <- attr (fun self => Session.id (session self)) ;;
   sku_id <- attr (fun self => Ticket.id (ticket self)) ;;
   api_result net
     {| rq_api := InfoToken;
        rq_params := ∅;
        rq_data :=
          list_to_map
            [("count", JStr "1"); ("order_type", JInt 1);
             ("project_id", JInt pid); ("screen_id", screen_id);
             ("sku_id", sku_id)];
        rq_credential := Some cred |})%M.

Definition _get_create_order_payload : M t (gmap string json) :=
  (res <- get_token ;;
   pay_money <- attr (fun self => Ticket.price (ticket self)) ;;
   pid <- attr project_id ;;
   screen_id <- attr (fun self => Session.id (session self)) ;;
   sku_id <- attr (fun self => Ticket.id (ticket self)) ;;
   token <- lift (getitem res "token") ;;
   let header : gmap string json :=
     list_to_map
       [("count", JInt 1); ("order_type", JInt 1);
        ("pay_money", pay_money); ("project_id", JInt pid);
        ("screen_id", screen_id); ("sku_id", sku_id);
        ("timestamp", JInt (time_ms ev)); ("token", token);
        ("deviceId", JStr (deviceid ev));
        ("clickPosition",
         JStr (json_dumps
                 (JDict (generate_clickPosition (click_rx ev) (click_ry ev)
                           (click_time_ms ev) (click_rd ev)))))] in
   pid' <- attr project_id ;;
   info <- get_project_info net pid' ;;
   info <- lift (pd <- getitem info "performance_desc" ;;
                 getitem pd "list")%res ;;
   info <- lift (elements <- py_iter info ;;
                 find_base_info elements info)%res ;;
   buyer <- attr target_buyer ;;
   lift (d <- getitem info "details" ;;
         details <- py_iter d ;;
         detail_loop json_dumps buyer header details)%res)%M.

Definition create_order : M t json :=
  (payload <- _get_create_order_payload ;;
   cred <- attr credential ;;
   pid <- attr project_id ;;
   api_result net
     {| rq_api := OperateOrder;
        rq_params := {["project_id" := JInt pid]};
        rq_data := payload;
        rq_credential := Some cred |})%M.
End methods.
End OrderTicket.

(** ** Vocabulary of the statements *)

(** The requests the operations send. *)
Definition project_request (project_id : Z) : request :=
  {| rq_api := InfoGet;
     rq_params := {["id" := JInt project_id]};
     rq_data := ∅;
     rq_credential := None |}.

Definition buyer_request (credential : Credential) : request :=
  {| rq_api := InfoBuyerInfo;
     rq_params := ∅;
     rq_data := ∅;
     rq_credential := Some credential |}.

Definition token_request (self : OrderTicket.t) : request :=
  {| rq_api := InfoToken;
     rq_params := ∅;
     rq_data :=
       list_to_map
         [("count", JStr "1"); ("order_type", JInt 1);
          ("project_id", JInt (OrderTicket.project_id self));
          ("screen_id", Session.id (OrderTicket.session self));
          ("sku_id", Ticket.id (OrderTicket.ticket self))];
     rq_credential := Some (OrderTicket.credential self) |}.

Definition order_request (self : OrderTicket.t) (payload : gmap string json)
    : request :=
  {| rq_api := OperateOrder;
     rq_params := {["project_id" := JInt (OrderTicket.project_id self)]};
     rq_data := payload;
     rq_credential := Some (OrderTicket.credential self) |}.

(** The round trips of a run: what it appended to the call log. *)
Definition round_trips {S A} (c : M S A) (w : world S) (trips : list request)
    : Prop :=
  calls (snd (c w)) = calls w ++ trips.

(** A run follows a plan: its round trips go to the endpoints of the
    plan, in the order of the plan; to all of them when the run returns,
    and to the first few when it raises. *)
Definition performs {S A} (c : M S A) (w : world S) (plan : list endpoint)
    : Prop :=
  ∃ trips,
    round_trips c w trips ∧
    map rq_api trips `prefix_of` plan ∧
    (∀ a, fst (c w) = Ok a → map rq_api trips = plan).

(** A response entry and the record made from it. *)
Definition ticket_of (t : json) (k : Ticket.t) : Prop :=
  getitem t "id" = Ok (Ticket.id k) ∧
  getitem t "price" = Ok (Ticket.price k) ∧
  getitem t "desc" = Ok (Ticket.desc k) ∧
  getitem t "sale_start" = Ok (Ticket.sale_start k) ∧
  getitem t "sale_end" = Ok (Ticket.sale_end k).

Definition session_of (v : json) (s : Session.t) : Prop :=
  getitem v "id" = Ok (Session.id s) ∧
  getitem v "start_time" = Ok (Session.start_time s) ∧
  getitem v "name" = Ok (Session.formatted_time s) ∧
  ∃ tl ts, getitem v "ticket_list" = Ok tl ∧ py_iter tl = Ok ts ∧
           Forall2 ticket_of ts (Session.ticket_list s).

(** [v] is a [dict] with each of [keys]. *)
Definition has_keys (keys : list string) (v : json) : bool :=
  match v with
  | JDict d => forallb (fun key => bool_decide (is_Some (dict_get key d))) keys
  | _ => false
  end.

Definition ticket_wf (t : json) : bool :=
  has_keys ["id"; "price"; "desc"; "sale_start"; "sale_end"] t.

Definition screen_wf (v : json) : bool :=
  has_keys ["id"; "start_time"; "name"; "ticket_list"] v &&
  match getitem v "ticket_list" with
  | Ok (JList ts) => forallb ticket_wf ts
  | _ => false
  end.

(** A price the invariant of the data model accepts. *)
Definition price_nonneg (p : json) : bool :=
  match p with
  | JInt n => (0 <=? n)%Z
  | _ => false
  end.

(** Every price of a catalog response is accepted. *)
Definition upstream_prices_nonneg (screens : list json) : bool :=
  forallb (fun v =>
    match getitem v "ticket_list" with
    | Ok (JList ts) =>
        forallb (fun t =>
          match getitem t "price" with
          | Ok p => price_nonneg p
          | Raise _ => false
          end) ts
    | _ => false
    end) screens.

(** An identity record and the [BuyerInfo] made from it: each entry of
    the record is the field of that name, and a field the record does
    not give is one of the two with a default, [True]. *)
Definition buyer_of (v : json) (b : BuyerInfo.t) : Prop :=
  ∃ d, v = JDict d ∧
    (∀ key x, dict_get key d = Some x → BuyerInfo.field b key = Some x) ∧
    (∀ key, In key BuyerInfo.fields → dict_get key d = None →
            In key BuyerInfo.defaulted ∧
            BuyerInfo.field b key = Some (JBool true)).

Definition buyer_wf (v : json) : bool :=
  has_keys BuyerInfo.required v &&
  match v with
  | JDict d => forallb (fun kv => existsb (String.eqb (fst kv)) BuyerInfo.fields) d
  | _ => false
  end.

(** The element of [performance_desc.list] the policy is read from: the
    first whose [module] is ["base_info"]. *)
Definition is_base_info (element : json) : bool :=
  match getitem element "module" with
  | Ok m => eq_str m "base_info"
  | Raise _ => false
  end.

Definition base_info_of (elements : list json) : option json :=
  List.find is_base_info elements.

Definition has_module (element : json) : bool :=
  match getitem element "module" with
  | Ok _ => true
  | Raise _ => false
  end.

(** The policy texts of the details, when each detail has one. *)
Definition content_of (detail : json) : option string :=
  match getitem detail "content" with
  | Ok (JStr c) => Some c
  | _ => None
  end.

(** Some policy text contains one of the two trigger substrings. *)
Definition requires_identity_document (contents : list string) : bool :=
  existsb (fun c => str_contains "一人一证" c || str_contains "一单一证" c)
          contents.

(** The two shapes of an order payload. *)
Definition buyer_info_shape (json_dumps : json → string) (buyer : BuyerInfo.t)
    (payload : gmap string json) : Prop :=
  payload !! "buyer_info" =
    Some (JStr (json_dumps (JList [JDict (BuyerInfo.__dict__ buyer)]))) ∧
  payload !! "buyer" = None ∧
  payload !! "tel" = None.

Definition buyer_tel_shape (buyer : BuyerInfo.t) (payload : gmap string json)
    : Prop :=
  payload !! "buyer" = Some (BuyerInfo.name buyer) ∧
  payload !! "tel" = Some (BuyerInfo.tel buyer) ∧
  payload !! "buyer_info" = None.

(** The header of the order payload, and what [_get_create_order_payload]
    computes from the token and the project information once both round
    trips have answered. *)
Definition header_of (json_dumps : json → string) (ev : env)
    (self : OrderTicket.t) (token : json) : gmap string json :=
  list_to_map
    [("count", JInt 1); ("order_type", JInt 1);
     ("pay_money", Ticket.price (OrderTicket.ticket self));
     ("project_id", JInt (OrderTicket.project_id self));
     ("screen_id", Session.id (OrderTicket.session self));
     ("sku_id", Ticket.id (OrderTicket.ticket self));
     ("timestamp", JInt (time_ms ev)); ("token", token);
     ("deviceId", JStr (deviceid ev));
     ("clickPosition",
      JStr (json_dumps
              (JDict (generate_clickPosition (click_rx ev) (click_ry ev)
                        (click_time_ms ev) (click_rd ev)))))].

Definition assemble (json_dumps : json → string) (ev : env)
    (self : OrderTicket.t) (token project_info : json)
    : result (gmap string json) :=
  (pd <- getitem project_info "performance_desc" ;;
   lst <- getitem pd "list" ;;
   elements <- py_iter lst ;;
   info <- find_base_info elements lst ;;
   d <- getitem info "details" ;;
   details <- py_iter d ;;
   detail_loop json_dumps (OrderTicket.target_buyer self)
     (header_of json_dumps ev self token) details)%res.

(** ** Sample data *)

Module Sample.
(** The serializer is a parameter of the order builder; the samples
    take one that answers a fixed text. *)
Definition dumps (_ : json) : string := "<json>".

Definition cred : Credential :=
  {| sessdata := Some "sess"; bili_jct := Some "csrf" |}.

Definition anonymous : Credential :=
  {| sessdata := None; bili_jct := None |}.

Definition vip : json :=
  JDict [("id", JInt 10); ("price", JInt 100); ("desc", JStr "VIP");
         ("sale_start", JStr "t0"); ("sale_end", JStr "t1")].

Definition screen : json :=
  JDict [("id", JInt 1); ("start_time", JInt 1700000000);
         ("name", JStr "2024-01-01 Monday"); ("ticket_list", JList [vip])].

Definition policy (text : string) : json :=
  JDict [("list",
          JList [JDict [("module", JStr "notice"); ("details", JList [])];
                 JDict [("module", JStr "base_info");
                        ("details",
                         JList [JDict [("title", JStr "时长");
                                       ("content", JStr "约120分钟")];
                                JDict [("title", JStr "入场");
                                       ("content", JStr text)]])]])].

(** A project whose venue wants one identity document per person. *)
Definition project : json :=
  JDict [("id", JInt 500); ("screen_list", JList [screen]);
         ("performance_desc", policy "本场演出一人一证，凭证入场")].

(** A project without such a rule. *)
Definition open_project : json :=
  JDict [("id", JInt 500); ("screen_list", JList [screen]);
         ("performance_desc", policy "凭票入场")].

(** A project whose description has no [base_info] element. *)
Definition bare_project : json :=
  JDict [("id", JInt 500); ("screen_list", JList [screen]);
         ("performance_desc",
          JDict [("list",
                  JList [JDict [("module", JStr "notice");
                                ("details", JList [])]])])].

(** A catalog that lists a ticket at a negative price. *)
Definition refund : json :=
  JDict [("id", JInt 11); ("price", JInt (-1)); ("desc", JStr "refund");
         ("sale_start", JStr "t0"); ("sale_end", JStr "t1")].

Definition odd_project : json :=
  JDict [("id", JInt 501);
         ("screen_list",
          JList [JDict [("id", JInt 2); ("start_time", JInt 1700000000);
                        ("name", JStr "2024-01-02 Tuesday");
                        ("ticket_list", JList [refund])]])].

Definition identity : json :=
  JDict [("id", JInt 1); ("uid", JInt 9); ("account_channel", JStr "");
         ("personal_id", JStr "110101199001010011"); ("name", JStr "Li Lei");
         ("id_card_front", JStr ""); ("id_card_back", JStr "");
         ("is_default", JInt 1); ("tel", JStr "13800000000");
         ("error_code", JStr ""); ("id_type", JInt 0);
         ("verify_status", JInt 1); ("accountId", JInt 9)].

Definition identities : json := JDict [("list", JList [identity])].

Definition buyer : BuyerInfo.t :=
  BuyerInfo.make (JInt 1) (JInt 9) (JStr "") (JStr "110101199001010011")
    (JStr "Li Lei") (JStr "") (JStr "") (JInt 1) (JStr "13800000000")
    (JStr "") (JInt 0) (JInt 1) (JInt 9) (JBool true) (JBool true).

Definition ticket : Ticket.t :=
  Ticket.make (JInt 10) (JInt 100) (JStr "VIP") (JStr "t0") (JStr "t1").

Definition session : Session.t :=
  Session.make (JInt 1) (JInt 1700000000) (JStr "2024-01-01 Monday") [ticket].

Definition order : OrderTicket.t :=
  OrderTicket.make cred buyer 500 session ticket.

Definition anonymous_order : OrderTicket.t :=
  OrderTicket.make anonymous buyer 500 session ticket.

Definition clock : env :=
  {| time_ms := 1700000000000; deviceid := "device";
     click_rx := 7; click_ry := 15; click_time_ms := 1700000000001;
     click_rd := 123456 |}.

(** A transport that answers each endpoint with a fixed response, the
    catalog with [catalog]. *)
Definition serve (catalog : json) : transport :=
  fun rq _ =>
    match rq_api rq with
    | InfoGet => Ok catalog
    | InfoBuyerInfo => Ok identities
    | InfoToken => Ok (JDict [("token", JStr "tok")])
    | OperateOrder => Ok (JDict [("orderId", JInt 77)])
    end.

(** A transport whose every round trip fails. *)
Definition down : transport :=
  fun _ _ => Raise (NetworkException "connection reset").

Definition start {S} (self : S) : world S := World self [].
End Sample.

(** ** Vocabulary of the edge cases *)

(** The first of [keys] that the [dict] [d] lacks. *)
Definition missing_key (keys : list string) (d : list (string * json))
    : option string :=
  List.find (fun key => negb (bool_decide (is_Some (dict_get key d)))) keys.

(** The exception of reading [keys] off [v], in that order: the
    [KeyError] of the first key a [dict] lacks, the [TypeError] of a
    value that is no [dict]. *)
Definition read_error (keys : list string) (v : json) : option exn :=
  match v with
  | JDict d => KeyError <$> missing_key keys d
  | _ => Some TypeError
  end.

Definition screen_keys : list string :=
  ["id"; "start_time"; "name"; "ticket_list"].

Definition ticket_keys : list string :=
  ["id"; "price"; "desc"; "sale_start"; "sale_end"].

(** The test the second loop of [_get_create_order_payload] makes on one
    detail: [content = detail["content"]], then the two [in]. *)
Definition detail_verdict (detail : json) : result bool :=
  (content <- getitem detail "content" ;;
   policy_line content)%res.

(** An element of [performance_desc.list] the first loop passes over:
    it names a module, and not ["base_info"]. *)
Definition passed_over (element : json) : bool :=
  has_module element && negb (is_base_info element).

(** A detail the second loop passes over: its test answers no. *)
Definition says_no (detail : json) : bool :=
  match detail_verdict detail with
  | Ok false => true
  | _ => false
  end.

(** The payload with the identity record, and the plain one. *)
Definition with_buyer_info (json_dumps : json → string) (buyer : BuyerInfo.t)
    (header : gmap string json) : gmap string json :=
  <["buyer_info" :=
      JStr (json_dumps (JList [JDict (BuyerInfo.__dict__ buyer)]))]> header.

Definition with_buyer_tel (buyer : BuyerInfo.t) (header : gmap string json)
    : gmap string json :=
  <["tel" := BuyerInfo.tel buyer]> (<["buyer" := BuyerInfo.name buyer]> header).

Module Edge.
(** An identity record with a field [BuyerInfo] does not declare. *)
Definition extended_identity : json :=
  JDict [("id", JInt 2); ("uid", JInt 9); ("account_channel", JStr "");
         ("personal_id", JStr "110101199001010038"); ("name", JStr "Han Mei");
         ("id_card_front", JStr ""); ("id_card_back", JStr "");
         ("is_default", JInt 0); ("tel", JStr "13900000000");
         ("error_code", JStr ""); ("id_type", JInt 0);
         ("verify_status", JInt 1); ("accountId", JInt 9);
         ("buyer_type", JInt 1)].

Definition identities : json :=
  JDict [("list", JList [Sample.identity; extended_identity])].

(** A screen without its [ticket_list], after a complete one. *)
Definition truncated_screen : json :=
  JDict [("id", JInt 2); ("start_time", JInt 1700086400);
         ("name", JStr "2024-01-02 Tuesday")].

Definition truncated_project : json :=
  JDict [("id", JInt 500);
         ("screen_list", JList [Sample.screen; truncated_screen])].

(** A ticket without its price, after a complete one. *)
Definition priceless_ticket : json :=
  JDict [("id", JInt 12); ("desc", JStr "gift");
         ("sale_start", JStr "t0"); ("sale_end", JStr "t1")].

Definition priceless_screen : json :=
  JDict [("id", JInt 3); ("start_time", JInt 1700172800);
         ("name", JStr "2024-01-03 Wednesday");
         ("ticket_list", JList [Sample.vip; priceless_ticket])].

Definition priceless_project : json :=
  JDict [("id", JInt 500); ("screen_list", JList [priceless_screen])].

(** A description whose list and details go on, after the [base_info]
    element and after the policy line, with values that are no
    [dict]. *)
Definition ragged_project : json :=
  JDict [("id", JInt 500);
         ("performance_desc",
          JDict [("list",
                  JList [JDict [("module", JStr "notice")];
                         JDict [("module", JStr "base_info");
                                ("details",
                                 JList [JDict [("content", JStr "约120分钟")];
                                        JDict [("content", JStr "实名制：一单一证")];
                                        JNull])];
                         JNull])])].

(** A description whose second detail has no [content]. *)
Definition untitled_project : json :=
  JDict [("id", JInt 500);
         ("performance_desc",
          JDict [("list",
                  JList [JDict [("module", JStr "base_info");
                                ("details",
                                 JList [JDict [("content", JStr "约120分钟")];
                                        JDict [("title", JStr "入场")];
                                        JDict [("content", JStr "一人一证")]])]])])].

(** A transport that answers each endpoint with a fixed response. *)
Definition serve (catalog ids token : json) : transport :=
  fun rq _ =>
    match rq_api rq with
    | InfoGet => Ok catalog
    | InfoBuyerInfo => Ok ids
    | InfoToken => Ok token
    | OperateOrder => Ok (JDict [("orderId", JInt 77)])
    end.

(** A token response without the token. *)
Definition refusal : json := JDict [("errno", JInt 100001)].

Definition token : json := JDict [("token", JStr "tok")].
End Edge.

Module Outage.
(** A transport like [Sample.serve Sample.project], except that every
    round trip to [broken] fails. *)
Definition at_endpoint (broken : endpoint) : transport :=
  fun rq log =>
    let failure := Raise (ResponseCodeException 100001) in
    match broken, rq_api rq with
    | InfoGet, InfoGet => failure
    | InfoBuyerInfo, InfoBuyerInfo => failure
    | InfoToken, InfoToken => failure
    | OperateOrder, OperateOrder => failure
    | _, _ => Sample.serve Sample.project rq log
    end.
End Outage.

(** ** Proof steps *)

(** Split a successful sequence of statements into its steps. *)
Ltac steps :=
  repeat match goal with
  | H : rbind ?r _ = Ok _ |- _ =>
      let a := fresh "a" in
      let Ha := fresh "Ha" in
      destruct r as [a|?] eqn:Ha; [cbn [rbind] in H | discriminate H]
  | H : Ok _ = Ok _ |- _ => injection H as H; try subst
  | H : Raise _ = Ok _ |- _ => discriminate H
  | H : (if ?b then _ else _) = Ok _ |- _ =>
      let Hb := fresh "Hb" in destruct b eqn:Hb
  end.

(** * Properties *)

(** ** Python values *)

Lemma randint_range a b r : a ≤ b → a ≤ randint a b r ≤ b.
Proof.
  intros Hab. unfold randint.
  pose proof (Z.mod_pos_bound r (b - a + 1)). lia.
Qed.

Lemma append_cons c s t :
  String.append (String c s) t = String c (String.append s t).
Proof. reflexivity. Qed.

Lemma append_nil t : String.append EmptyString t = t.
Proof. reflexivity. Qed.

Lemma prefix_spec needle hay :
  String.prefix needle hay = true ↔ ∃ rest, hay = String.append needle rest.
Proof.
  revert hay. induction needle as [|c needle IH]; intros hay.
  - split; [intros _; by exists hay | by destruct hay].
  - setoid_rewrite append_cons.
    destruct hay as [|c' hay]; simpl.
    + split; [done | by intros [rest ?]].
    + destruct (Ascii.ascii_dec c c') as [->|Hne].
      * rewrite IH. split; intros [rest Hr]; exists rest; congruence.
      * split; [done | intros [rest Hr]; congruence].
Qed.

(** [str_contains] is the test [in] of Python on strings: the needle
    occurs somewhere in the haystack. *)
Lemma str_contains_spec needle hay :
  str_contains needle hay = true ↔
  ∃ before after, hay = String.append before (String.append needle after).
Proof.
  induction hay as [|c hay IH]; cbn [str_contains].
  - rewrite orb_false_r, prefix_spec. split.
    + intros [rest Hr]. by exists EmptyString, rest.
    + intros [before [after Hr]].
      destruct before; [by exists after | by rewrite append_cons in Hr].
  - rewrite orb_true_iff, prefix_spec, IH. split.
    + intros [[rest Hr] | [before [after Hr]]].
      * by exists EmptyString, rest.
      * exists (String c before), after. by rewrite append_cons, Hr.
    + intros [before [after Hr]]. destruct before as [|c' before].
      * left. by exists after.
      * right. exists before, after. rewrite append_cons in Hr. congruence.
Qed.

Example str_contains_policy :
  str_contains "一人一证" "本场演出一人一证，凭证入场" = true ∧
  str_contains "一单一证" "本场演出一人一证，凭证入场" = false.
Proof. by split. Qed.

Example str_chars_policy :
  str_chars "一单一证" = ["一"; "单"; "一"; "证"].
Proof. reflexivity. Qed.

(** ** Click generator *)

(** C6: every result of [generate_clickPosition] has [1320 <= x <= 1330],
    [880 <= y <= 890], [5000 <= now - origin <= 10000] and [origin > 0],
    for every draw of the generator and every positive reading of the
    clock. *)
Theorem generate_clickPosition_bounds (rx ry now_ms rd : Z) :
  0 < now_ms →
  ∃ x y origin now,
    generate_clickPosition rx ry now_ms rd =
      [("x", JInt x); ("y", JInt y); ("origin", JInt origin); ("now", JInt now)] ∧
    1320 ≤ x ≤ 1330 ∧ 880 ≤ y ≤ 890 ∧
    5000 ≤ now - origin ≤ 10000 ∧ 0 < origin.
Proof.
  intros Hclock.
  exists (randint 1320 1330 rx), (randint 880 890 ry), now_ms,
         (now_ms + randint 5000 10000 rd).
  pose proof (randint_range 1320 1330 rx).
  pose proof (randint_range 880 890 ry).
  pose proof (randint_range 5000 10000 rd).
  split; [reflexivity | lia].
Qed.

Lemma generate_clickPosition_bounds_witness :
  0 < 1700000000001 ∧
  ∃ x y origin now,
    generate_clickPosition 7 15 1700000000001 123456 =
      [("x", JInt x); ("y", JInt y); ("origin", JInt origin); ("now", JInt now)] ∧
    1320 ≤ x ≤ 1330 ∧ 880 ≤ y ≤ 890 ∧
    5000 ≤ now - origin ≤ 10000 ∧ 0 < origin.
Proof.
  split; [lia | apply (generate_clickPosition_bounds 7 15 1700000000001 123456); lia].
Defined.

Example generate_clickPosition_sample :
  generate_clickPosition 7 15 1700000000001 123456 =
    [("x", JInt 1327); ("y", JInt 884);
     ("origin", JInt 1700000000001); ("now", JInt 1700000008433)].
Proof. reflexivity. Qed.
(** ** The result monad *)

Lemma rbind_Ok {A B} (r : result A) (k : A → result B) b :
  rbind r k = Ok b → ∃ a, r = Ok a ∧ k a = Ok b.
Proof. destruct r as [a|e]; simpl; [eauto | done]. Qed.

Lemma has_keys_getitem keys v key :
  has_keys keys v = true → In key keys → ∃ x, getitem v key = Ok x.
Proof.
  destruct v as [| | | | | |d]; simpl; try done.
  rewrite forallb_forall. intros Hall Hin.
  specialize (Hall key Hin). apply bool_decide_eq_true in Hall as [x Hx].
  exists x. by rewrite Hx.
Qed.

(** ** Catalog reader *)

Lemma ticket_loop_spec ts sess_obj out :
  ticket_loop ts sess_obj = Ok out →
  ∃ ks,
    out = Session.make (Session.id sess_obj) (Session.start_time sess_obj)
            (Session.formatted_time sess_obj)
            (Session.ticket_list sess_obj ++ ks) ∧
    Forall2 ticket_of ts ks.
Proof.
  revert sess_obj. induction ts as [|t ts IH]; intros sess_obj H; simpl in H.
  - injection H as <-. exists []. rewrite app_nil_r. by destruct sess_obj.
  - steps. apply IH in H as (ks & -> & Hks). simpl.
    exists (Ticket.make a a0 a1 a2 a3 :: ks). split.
    + by rewrite <- app_assoc.
    + constructor; [by repeat split | done].
Qed.

Lemma ticket_loop_total ts sess_obj :
  forallb ticket_wf ts = true → ∃ out, ticket_loop ts sess_obj = Ok out.
Proof.
  revert sess_obj. induction ts as [|t ts IH]; intros sess_obj Hwf; simpl in *.
  - eauto.
  - apply andb_true_iff in Hwf as [Ht Hts]. unfold ticket_wf in Ht.
    destruct (has_keys_getitem _ _ "id" Ht) as [a1 ->]; [simpl; tauto|].
    destruct (has_keys_getitem _ _ "price" Ht) as [a2 ->]; [simpl; tauto|].
    destruct (has_keys_getitem _ _ "desc" Ht) as [a3 ->]; [simpl; tauto|].
    destruct (has_keys_getitem _ _ "sale_start" Ht) as [a4 ->]; [simpl; tauto|].
    destruct (has_keys_getitem _ _ "sale_end" Ht) as [a5 ->]; [simpl; tauto|].
    simpl. by apply IH.
Qed.

Lemma session_loop_spec vs rtn_list out :
  session_loop vs rtn_list = Ok out →
  ∃ ss, out = rtn_list ++ ss ∧ Forall2 session_of vs ss.
Proof.
  revert rtn_list. induction vs as [|v vs IH]; intros rtn_list H; simpl in H.
  - injection H as <-. exists []. by rewrite app_nil_r.
  - steps. apply IH in H as (ss & -> & Hss).
    apply ticket_loop_spec in Ha4 as (ks & -> & Hks). simpl in *.
    eexists (_ :: ss). split.
    + by rewrite <- app_assoc.
    + constructor; [|done]. repeat split; simpl; try done. eauto.
Qed.

Lemma session_loop_total vs rtn_list :
  forallb screen_wf vs = true → ∃ out, session_loop vs rtn_list = Ok out.
Proof.
  revert rtn_list. induction vs as [|v vs IH]; intros rtn_list Hwf; simpl in *.
  - eauto.
  - apply andb_true_iff in Hwf as [Hv Hvs]. unfold screen_wf in Hv.
    apply andb_true_iff in Hv as [Hk Htl].
    destruct (has_keys_getitem _ _ "id" Hk) as [a1 ->]; [simpl; tauto|].
    destruct (has_keys_getitem _ _ "start_time" Hk) as [a2 ->]; [simpl; tauto|].
    destruct (has_keys_getitem _ _ "name" Hk) as [a3 ->]; [simpl; tauto|].
    destruct (getitem v "ticket_list") as [[| | | | |ts|]|]; try done. simpl.
    destruct (ticket_loop_total ts (Session.make a1 a2 a3 []) Htl) as [s ->].
    simpl. by apply IH.
Qed.

Lemma get_available_sessions_run {S} net project_id (w : world S) :
  get_available_sessions net project_id w =
    (match net (project_request project_id) (calls w) with
     | Ok project_info =>
         (sl <- getitem project_info "screen_list" ;;
          vs <- py_iter sl ;;
          session_loop vs [])%res
     | Raise e => Raise e
     end,
     World (store w) (calls w ++ [project_request project_id])).
Proof.
  unfold get_available_sessions, get_project_info, bind, api_result, lift.
  fold (project_request project_id).
  by destruct (net (project_request project_id) (calls w)).
Qed.

(** C3: the Sessions of [get_available_sessions] are the screens of the
    response's [screen_list], one for one and in order, and the Tickets
    of each Session are the entries of that screen's [ticket_list], one
    for one and in order, every field copied from the response: nothing
    is dropped, duplicated, reordered or filtered.  The call returns on
    every response whose screens and tickets carry those fields. *)
Theorem get_available_sessions_round_trip {S} net project_id (w : world S)
    project_info screens :
  net (project_request project_id) (calls w) = Ok project_info →
  getitem project_info "screen_list" = Ok (JList screens) →
  (forallb screen_wf screens = true →
   ∃ ss, fst (get_available_sessions net project_id w) = Ok ss) ∧
  (∀ ss, fst (get_available_sessions net project_id w) = Ok ss →
         length ss = length screens ∧ Forall2 session_of screens ss).
Proof.
  intros Hnet Hsl. rewrite get_available_sessions_run, Hnet, Hsl. simpl. split.
  - intros Hwf. by apply session_loop_total.
  - intros ss Hss. apply session_loop_spec in Hss as (ss' & -> & Hall).
    simpl. split; [|done]. symmetry. by eapply Forall2_length.
Qed.

Lemma get_available_sessions_round_trip_witness :
  ∃ ss,
    fst (get_available_sessions (Sample.serve Sample.project) 500
           (Sample.start tt)) = Ok ss ∧
    length ss = length [Sample.screen] ∧
    Forall2 session_of [Sample.screen] ss.
Proof.
  destruct (get_available_sessions_round_trip (Sample.serve Sample.project) 500
              (Sample.start tt) Sample.project [Sample.screen]
              eq_refl eq_refl) as [Hret Hsound].
  destruct (Hret eq_refl) as [ss Hss].
  exists ss. split; [exact Hss | exact (Hsound ss Hss)].
Defined.

(** The scenario of the specification: project 500 with one screen and
    one ticket. *)
Example get_available_sessions_scenario :
  fst (get_available_sessions (Sample.serve Sample.project) 500
         (Sample.start tt)) = Ok [Sample.session].
Proof. reflexivity. Qed.

(** C8, as the code has it: a Ticket has the price of the entry it was
    made from, whatever that is, and so every Ticket has a non-negative
    price whenever every price of the response is a non-negative
    integer. *)
Theorem ticket_prices_follow_upstream {S} net project_id (w : world S)
    project_info screens ss :
  net (project_request project_id) (calls w) = Ok project_info →
  getitem project_info "screen_list" = Ok (JList screens) →
  fst (get_available_sessions net project_id w) = Ok ss →
  Forall2 (fun v s =>
             ∃ tl ts, getitem v "ticket_list" = Ok tl ∧ py_iter tl = Ok ts ∧
               Forall2 (fun t k => getitem t "price" = Ok (Ticket.price k))
                       ts (Session.ticket_list s))
          screens ss ∧
  (upstream_prices_nonneg screens = true →
   Forall (fun s =>
             Forall (fun k => price_nonneg (Ticket.price k) = true)
                    (Session.ticket_list s))
          ss).
Proof.
  intros Hnet Hsl Hss.
  destruct (get_available_sessions_round_trip net project_id w _ _ Hnet Hsl)
    as [_ Hsound].
  destruct (Hsound ss Hss) as [_ Hall]. clear Hsound Hss Hnet Hsl.
  split.
  - induction Hall as [|v s vs ss' Hvs _ IH]; constructor; [|done].
    destruct Hvs as (_ & _ & _ & tl & ts & Htl & Hts & Hks).
    exists tl, ts. repeat split; try done.
    clear -Hks. induction Hks as [|t k ts ks Hk _ IH]; constructor; [|done].
    by destruct Hk as (_ & ? & _).
  - unfold upstream_prices_nonneg.
    induction Hall as [|v s vs ss' Hvs _ IH]; simpl; intros Hup; constructor.
    + apply andb_true_iff in Hup as [Hv _].
      destruct Hvs as (_ & _ & _ & tl & ts & Htl & Hts & Hks).
      rewrite Htl in Hv. destruct tl as [| | | | |l|]; try done.
      simpl in Hts. injection Hts as <-.
      clear -Hks Hv. induction Hks as [|t k ts ks Hk _ IH]; constructor.
      * simpl in Hv. apply andb_true_iff in Hv as [Hp _].
        destruct Hk as (_ & Hprice & _). by rewrite Hprice in Hp.
      * simpl in Hv. apply andb_true_iff in Hv as [_ Hrest]. by apply IH.
    + apply andb_true_iff in Hup as [_ Hrest]. by apply IH.
Qed.

Lemma ticket_prices_follow_upstream_witness :
  Forall (fun s =>
            Forall (fun k => price_nonneg (Ticket.price k) = true)
                   (Session.ticket_list s))
         [Sample.session].
Proof.
  exact (proj2 (ticket_prices_follow_upstream (Sample.serve Sample.project) 500
                  (Sample.start tt) Sample.project [Sample.screen]
                  [Sample.session] eq_refl eq_refl eq_refl) eq_refl).
Defined.

Lemma negative_price_ticket :
  ∃ s k,
    fst (get_available_sessions (Sample.serve Sample.odd_project) 501
           (Sample.start tt)) = Ok [s] ∧
    Session.ticket_list s = [k] ∧
    Ticket.price k = JInt (-1) ∧
    price_nonneg (Ticket.price k) = false.
Proof. by eexists _, _. Qed.

(** ** Identity reader *)

Lemma get_all_buyer_info_run {S} net credential (w : world S) :
  get_all_buyer_info net credential w =
    match sessdata credential with
    | Some _ =>
        (net (buyer_request credential) (calls w),
         World (store w) (calls w ++ [buyer_request credential]))
    | None => (Raise CredentialNoSessdataException, w)
    end.
Proof.
  unfold get_all_buyer_info, bind, lift, raise_for_no_sessdata.
  by destruct (sessdata credential).
Qed.

Lemma get_all_buyer_info_obj_run {S} net credential (w : world S) :
  get_all_buyer_info_obj net credential w =
    match sessdata credential with
    | Some _ =>
        (match net (buyer_request credential) (calls w) with
         | Ok res =>
             (l <- getitem res "list" ;;
              vs <- py_iter l ;;
              buyer_loop vs)%res
         | Raise e => Raise e
         end,
         World (store w) (calls w ++ [buyer_request credential]))
    | None => (Raise CredentialNoSessdataException, w)
    end.
Proof.
  unfold get_all_buyer_info_obj, bind. rewrite get_all_buyer_info_run.
  destruct (sessdata credential); [|done].
  by destruct (net (buyer_request credential) (calls w)).
Qed.

Lemma dict_get_Some_In key d x : dict_get key d = Some x → In (key, x) d.
Proof.
  induction d as [|[k v] d IH]; simpl; [done|].
  destruct (String.eqb k key) eqn:Hk.
  - apply String.eqb_eq in Hk as ->. intros [= ->]. by left.
  - intros H. right. by apply IH.
Qed.

Lemma kwarg_Ok d key a : BuyerInfo.kwarg d key = Ok a → dict_get key d = Some a.
Proof. unfold BuyerInfo.kwarg. destruct (dict_get key d); congruence. Qed.

Lemma existsb_eqb_In key keys :
  existsb (String.eqb key) keys = true ↔ In key keys.
Proof.
  rewrite existsb_exists. split.
  - intros (k & Hin & Hk). by apply String.eqb_eq in Hk as ->.
  - intros Hin. exists key. split; [done | apply String.eqb_refl].
Qed.

Lemma BuyerInfo_new_spec v b : BuyerInfo.new v = Ok b → buyer_of v b.
Proof.
  unfold BuyerInfo.new. destruct v as [| | | | | |d]; try done.
  destruct (forallb _ d) eqn:Hkeys; [|done].
  intros H. steps.
  repeat match goal with
         | H : BuyerInfo.kwarg _ _ = Ok _ |- _ => apply kwarg_Ok in H
         end.
  rewrite forallb_forall in Hkeys.
  exists d. split; [done|]. split.
  - intros key x Hx.
    pose proof (Hkeys _ (dict_get_Some_In _ _ _ Hx)) as Hin.
    apply existsb_eqb_In in Hin. simpl in Hin.
    unfold BuyerInfo.field, BuyerInfo.kwarg_default.
    repeat (destruct Hin as [<-|Hin]; [simpl; try congruence; by rewrite Hx|]).
    done.
  - intros key Hin Hnone. simpl in Hin.
    unfold BuyerInfo.field, BuyerInfo.kwarg_default.
    repeat (destruct Hin as [<-|Hin];
            [try congruence; rewrite Hnone; simpl; tauto|]).
    done.
Qed.

Lemma BuyerInfo_new_total v : buyer_wf v = true → ∃ b, BuyerInfo.new v = Ok b.
Proof.
  unfold buyer_wf. intros Hwf. apply andb_true_iff in Hwf as [Hreq Hkeys].
  destruct v as [| | | | | |d]; try done.
  unfold BuyerInfo.new. rewrite Hkeys.
  simpl in Hreq. rewrite !andb_true_iff in Hreq.
  unfold BuyerInfo.kwarg.
  repeat match type of Hreq with
         | _ ∧ _ => let H := fresh "H" in destruct Hreq as [H Hreq];
                    apply bool_decide_eq_true in H as [? ->]
         end.
  simpl. eauto.
Qed.

Lemma buyer_loop_spec vs bs :
  buyer_loop vs = Ok bs → Forall2 buyer_of vs bs.
Proof.
  revert bs. induction vs as [|v vs IH]; intros bs H; simpl in H.
  - injection H as <-. constructor.
  - steps. constructor; [by apply BuyerInfo_new_spec | by apply IH].
Qed.

Lemma buyer_loop_total vs :
  forallb buyer_wf vs = true → ∃ bs, buyer_loop vs = Ok bs.
Proof.
  induction vs as [|v vs IH]; simpl; [eauto|].
  intros Hwf. apply andb_true_iff in Hwf as [Hv Hvs].
  destruct (BuyerInfo_new_total v Hv) as [b ->].
  destruct (IH Hvs) as [bs ->]. simpl. eauto.
Qed.

(** C7: the records of [get_all_buyer_info_obj] are the elements of the
    response's [list], one for one and in order, and the fields of each
    record are the entries of its element.  The call returns on every
    response whose elements carry the fields of [BuyerInfo]. *)
Theorem get_all_buyer_info_obj_round_trip {S} net credential (w : world S)
    res elements :
  is_Some (sessdata credential) →
  net (buyer_request credential) (calls w) = Ok res →
  getitem res "list" = Ok (JList elements) →
  (forallb buyer_wf elements = true →
   ∃ bs, fst (get_all_buyer_info_obj net credential w) = Ok bs) ∧
  (∀ bs, fst (get_all_buyer_info_obj net credential w) = Ok bs →
         length bs = length elements ∧ Forall2 buyer_of elements bs).
Proof.
  intros [token Htoken] Hnet Hlist.
  rewrite get_all_buyer_info_obj_run, Htoken, Hnet, Hlist. simpl. split.
  - apply buyer_loop_total.
  - intros bs Hbs. apply buyer_loop_spec in Hbs.
    split; [|done]. symmetry. by eapply Forall2_length.
Qed.

Lemma get_all_buyer_info_obj_round_trip_witness :
  ∃ bs,
    fst (get_all_buyer_info_obj (Sample.serve Sample.project) Sample.cred
           (Sample.start tt)) = Ok bs ∧
    length bs = length [Sample.identity] ∧
    Forall2 buyer_of [Sample.identity] bs.
Proof.
  destruct (get_all_buyer_info_obj_round_trip (Sample.serve Sample.project)
              Sample.cred (Sample.start tt) Sample.identities
              [Sample.identity] (mk_is_Some _ _ eq_refl) eq_refl eq_refl)
    as [Hret Hsound].
  destruct (Hret eq_refl) as [bs Hbs].
  exists bs. split; [exact Hbs | exact (Hsound bs Hbs)].
Defined.

(** The scenario of the specification: one identity record, one
    [BuyerInfo] with its fields. *)
Example get_all_buyer_info_obj_scenario :
  fst (get_all_buyer_info_obj (Sample.serve Sample.project) Sample.cred
         (Sample.start tt)) = Ok [Sample.buyer].
Proof. reflexivity. Qed.

(** ** Order builder and submitter: the runs *)

Section order_runs.
Context (net : transport) (json_dumps : json → string) (ev : env).
Implicit Types w : world OrderTicket.t.

Lemma get_token_run w :
  OrderTicket.get_token net w =
    match sessdata (OrderTicket.credential (store w)) with
    | Some _ =>
        (net (token_request (store w)) (calls w),
         World (store w) (calls w ++ [token_request (store w)]))
    | None => (Raise CredentialNoSessdataException, w)
    end.
Proof.
  unfold OrderTicket.get_token, bind, attr, lift, raise_for_no_sessdata.
  by destruct (sessdata (OrderTicket.credential (store w))).
Qed.

Lemma _get_create_order_payload_run w :
  OrderTicket._get_create_order_payload net json_dumps ev w =
    let self := store w in
    match OrderTicket.get_token net w with
    | (Ok res, w1) =>
        match getitem res "token" with
        | Ok token =>
            let rq := project_request (OrderTicket.project_id self) in
            (match net rq (calls w1) with
             | Ok project_info => assemble json_dumps ev self token project_info
             | Raise e => Raise e
             end,
             World self (calls w1 ++ [rq]))
        | Raise e => (Raise e, w1)
        end
    | (Raise e, w1) => (Raise e, w1)
    end.
Proof.
  unfold OrderTicket._get_create_order_payload, bind at 1.
  rewrite get_token_run.
  destruct (sessdata (OrderTicket.credential (store w))); [|done].
  destruct (net (token_request (store w)) (calls w)) as [res|e]; [|done].
  unfold bind, attr, lift, get_project_info, api_result. simpl.
  destruct (getitem res "token") as [token|e]; [|done]. simpl.
  fold (project_request (OrderTicket.project_id (store w))).
  destruct (net _ _) as [project_info|e]; [|done].
  unfold assemble. fold (header_of json_dumps ev (store w) token).
  destruct (getitem project_info "performance_desc") as [pd|e]; [|done]. simpl.
  destruct (getitem pd "list") as [lst|e]; [|done]. simpl.
  destruct (py_iter lst) as [elements|e]; [|done]. simpl.
  by destruct (find_base_info elements lst) as [info|e].
Qed.

Lemma create_order_run w :
  OrderTicket.create_order net json_dumps ev w =
    match OrderTicket._get_create_order_payload net json_dumps ev w with
    | (Ok payload, w1) =>
        (net (order_request (store w1) payload) (calls w1),
         World (store w1) (calls w1 ++ [order_request (store w1) payload]))
    | (Raise e, w1) => (Raise e, w1)
    end.
Proof.
  unfold OrderTicket.create_order, bind at 1.
  by destruct (OrderTicket._get_create_order_payload net json_dumps ev w)
    as [[payload|e] w1].
Qed.
End order_runs.

(** ** Credential gate *)

(** C4: with a credential that lacks the session token, each gated
    operation raises the authentication error and leaves the world as it
    found it: the call log is the same, so no round trip was made,
    whatever the transport would have answered. *)
Theorem credential_gate net json_dumps ev credential :
  sessdata credential = None →
  (∀ S (w : world S),
     get_all_buyer_info net credential w =
       (Raise CredentialNoSessdataException, w) ∧
     get_all_buyer_info_obj net credential w =
       (Raise CredentialNoSessdataException, w)) ∧
  (∀ w : world OrderTicket.t,
     OrderTicket.credential (store w) = credential →
     OrderTicket.get_token net w =
       (Raise CredentialNoSessdataException, w) ∧
     OrderTicket._get_create_order_payload net json_dumps ev w =
       (Raise CredentialNoSessdataException, w) ∧
     OrderTicket.create_order net json_dumps ev w =
       (Raise CredentialNoSessdataException, w)).
Proof.
  intros Hnone. split.
  - intros S w.
    by rewrite get_all_buyer_info_run, get_all_buyer_info_obj_run, Hnone.
  - intros w <-.
    assert (OrderTicket.get_token net w =
              (Raise CredentialNoSessdataException, w)) as Htoken
      by (by rewrite get_token_run, Hnone).
    assert (OrderTicket._get_create_order_payload net json_dumps ev w =
              (Raise CredentialNoSessdataException, w)) as Hpayload
      by (by rewrite _get_create_order_payload_run, Htoken).
    repeat split; try done.
    by rewrite create_order_run, Hpayload.
Qed.

Lemma credential_gate_witness :
  get_all_buyer_info (Sample.serve Sample.project) Sample.anonymous
    (Sample.start tt) =
    (Raise CredentialNoSessdataException, Sample.start tt) ∧
  OrderTicket.create_order (Sample.serve Sample.project) Sample.dumps
    Sample.clock (Sample.start Sample.anonymous_order) =
    (Raise CredentialNoSessdataException, Sample.start Sample.anonymous_order).
Proof.
  destruct (credential_gate (Sample.serve Sample.project) Sample.dumps
              Sample.clock Sample.anonymous eq_refl) as [Hfun Hmeth].
  split.
  - exact (proj1 (Hfun unit (Sample.start tt))).
  - exact (proj2 (proj2 (Hmeth (Sample.start Sample.anonymous_order) eq_refl))).
Defined.

(** ** Frame *)

(** C9: no operation of [OrderTicket] changes a field of the object it
    is called on: the store after the run is the store before it, on
    every path, returning or raising; so the credential the object
    holds is the one it held. *)
Theorem order_ticket_frame net json_dumps ev (w : world OrderTicket.t) :
  store (snd (OrderTicket.get_token net w)) = store w ∧
  store (snd (OrderTicket._get_create_order_payload net json_dumps ev w)) =
    store w ∧
  store (snd (OrderTicket.create_order net json_dumps ev w)) = store w.
Proof.
  assert (store (snd (OrderTicket.get_token net w)) = store w) as Htoken.
  { rewrite get_token_run.
    by destruct (sessdata (OrderTicket.credential (store w))). }
  assert (store (snd (OrderTicket._get_create_order_payload net json_dumps ev w))
          = store w) as Hpayload.
  { rewrite _get_create_order_payload_run. cbv zeta.
    destruct (OrderTicket.get_token net w) as [[res|e] w1]; [|done].
    by destruct (getitem res "token"). }
  repeat split; try done.
  rewrite create_order_run.
  by destruct (OrderTicket._get_create_order_payload net json_dumps ev w)
    as [[payload|e] w1].
Qed.

(** ** Round trips *)

Lemma performs_one {S A} (c : M S A) (w : world S) rq :
  calls (snd (c w)) = calls w ++ [rq] → performs c w [rq_api rq].
Proof. intros Hlog. by exists [rq]. Qed.

Lemma performs_gated {S A} (c : M S A) (w : world S) rq e :
  c w = (Raise e, w) → performs c w [rq_api rq].
Proof.
  intros Hrun. exists []. unfold round_trips. rewrite Hrun. simpl.
  repeat split; [by rewrite app_nil_r | apply prefix_nil | done].
Qed.

Lemma get_token_performs net (w : world OrderTicket.t) :
  performs (OrderTicket.get_token net) w [InfoToken].
Proof.
  pose proof (get_token_run net w) as Hrun.
  destruct (sessdata (OrderTicket.credential (store w))).
  - apply (performs_one _ _ (token_request (store w))). by rewrite Hrun.
  - by apply (performs_gated _ _ (token_request (store w)) _ Hrun).
Qed.

Lemma _get_create_order_payload_performs net json_dumps ev
    (w : world OrderTicket.t) :
  performs (OrderTicket._get_create_order_payload net json_dumps ev) w
    [InfoToken; InfoGet].
Proof.
  unfold performs, round_trips.
  rewrite _get_create_order_payload_run, get_token_run. cbv zeta.
  destruct (sessdata (OrderTicket.credential (store w))).
  - destruct (net (token_request (store w)) (calls w)) as [res|e].
    + destruct (getitem res "token") as [token|e]; simpl.
      * eexists [_; _]. rewrite <- app_assoc. by repeat split.
      * eexists [_]. repeat split; [by apply prefix_cons, prefix_nil | done].
    + eexists [_]. repeat split; [by apply prefix_cons, prefix_nil | done].
  - exists []. simpl. rewrite app_nil_r. repeat split; [apply prefix_nil | done].
Qed.

(** C2, as the code has it: [create_order] makes three round trips when
    it completes, in this order: the token request, the project
    information that [_get_create_order_payload] fetches again, and the
    order submission; [_get_create_order_payload] alone makes the first
    two; every other operation makes at most one.  A run that raises
    stops at the round trip that failed. *)
Theorem create_order_round_trips net json_dumps ev (w : world OrderTicket.t) :
  performs (OrderTicket.create_order net json_dumps ev) w
    [InfoToken; InfoGet; OperateOrder] ∧
  performs (OrderTicket._get_create_order_payload net json_dumps ev) w
    [InfoToken; InfoGet] ∧
  performs (OrderTicket.get_token net) w [InfoToken] ∧
  (∀ S (w' : world S) project_id,
     performs (get_project_info net project_id) w' [InfoGet] ∧
     performs (get_available_sessions net project_id) w' [InfoGet]) ∧
  (∀ S (w' : world S) credential,
     performs (get_all_buyer_info net credential) w' [InfoBuyerInfo] ∧
     performs (get_all_buyer_info_obj net credential) w' [InfoBuyerInfo]).
Proof.
  split; [|split; [|split; [|split]]].
  - destruct (_get_create_order_payload_performs net json_dumps ev w)
      as (trips & Hlog & Hprefix & Hall).
    unfold performs, round_trips in *. rewrite create_order_run.
    destruct (OrderTicket._get_create_order_payload net json_dumps ev w)
      as [[payload|e] w1]; simpl in *.
    + exists (trips ++ [order_request (store w1) payload]).
      rewrite Hlog, <- app_assoc, map_app, (Hall payload eq_refl).
      by repeat split.
    + exists trips. repeat split; [done | | done].
      etrans; [exact Hprefix|]. by exists [OperateOrder].
  - apply _get_create_order_payload_performs.
  - apply get_token_performs.
  - intros S w' project_id. split.
    + by apply (performs_one _ _ (project_request project_id)).
    + apply (performs_one _ _ (project_request project_id)).
      by rewrite get_available_sessions_run.
  - intros S w' credential.
    pose proof (get_all_buyer_info_run net credential w') as Hrun.
    pose proof (get_all_buyer_info_obj_run net credential w') as Hobj.
    destruct (sessdata credential); split.
    + apply (performs_one _ _ (buyer_request credential)). by rewrite Hrun.
    + apply (performs_one _ _ (buyer_request credential)). by rewrite Hobj.
    + by apply (performs_gated _ _ (buyer_request credential) _ Hrun).
    + by apply (performs_gated _ _ (buyer_request credential) _ Hobj).
Qed.

Lemma create_order_three_round_trips :
  let run :=
    OrderTicket.create_order (Sample.serve Sample.project) Sample.dumps
      Sample.clock (Sample.start Sample.order) in
  fst run = Ok (JDict [("orderId", JInt 77)]) ∧
  map rq_api (calls (snd run)) = [InfoToken; InfoGet; OperateOrder] ∧
  length (calls (snd run)) ≠ 2%nat ∧
  map rq_api
    (calls (snd (OrderTicket._get_create_order_payload
                   (Sample.serve Sample.project) Sample.dumps Sample.clock
                   (Sample.start Sample.order)))) = [InfoToken; InfoGet].
Proof. vm_compute. repeat split; congruence. Qed.

(** ** Propagation of errors *)

Lemma _get_create_order_payload_store net json_dumps ev
    (w : world OrderTicket.t) :
  store (snd (OrderTicket._get_create_order_payload net json_dumps ev w)) =
    store w.
Proof.
  rewrite _get_create_order_payload_run, get_token_run. cbv zeta.
  destruct (sessdata (OrderTicket.credential (store w))); [|done].
  destruct (net (token_request (store w)) (calls w)) as [res|e]; [|done].
  by destruct (getitem res "token").
Qed.

(** C5: when [get_token] raises, [create_order] raises the same
    exception and stops where [get_token] stopped: its world is the one
    [get_token] left, so nothing was sent to the order endpoint.  No
    operation of the module catches or retries.  At every point where
    an operation can fail (the credential check, each round trip, each
    read of a response) the exception raised there is the result of the
    operation, unchanged, and the call log ends with the round trips
    made up to that point: a failed round trip is in it once, as its
    last entry, and nothing is sent after a failure. *)
Theorem create_order_propagates net json_dumps ev :
  let get_token := OrderTicket.get_token net in
  let build := OrderTicket._get_create_order_payload net json_dumps ev in
  let create_order := OrderTicket.create_order net json_dumps ev in
  (* create_order: a failure of get_token *)
  (∀ w e,
     fst (get_token w) = Raise e →
     create_order w = (Raise e, snd (get_token w)) ∧
     ∃ trips,
       round_trips create_order w trips ∧
       Forall (fun rq => rq_api rq ≠ OperateOrder) trips) ∧
  (* create_order: any failure of _get_create_order_payload *)
  (∀ w e,
     fst (build w) = Raise e →
     create_order w = (Raise e, snd (build w))) ∧
  (* create_order: a failure of the order submission *)
  (∀ w payload e,
     fst (build w) = Ok payload →
     net (order_request (store w) payload) (calls (snd (build w))) = Raise e →
     create_order w =
       (Raise e,
        World (store w)
          (calls (snd (build w)) ++ [order_request (store w) payload]))) ∧
  (* _get_create_order_payload: a failure of get_token *)
  (∀ w e,
     fst (get_token w) = Raise e →
     build w = (Raise e, snd (get_token w))) ∧
  (* _get_create_order_payload: a token response without the token *)
  (∀ w res e,
     fst (get_token w) = Ok res →
     getitem res "token" = Raise e →
     build w = (Raise e, snd (get_token w))) ∧
  (* _get_create_order_payload: a failure of get_project_info *)
  (∀ w res token e,
     fst (get_token w) = Ok res →
     getitem res "token" = Ok token →
     net (project_request (OrderTicket.project_id (store w)))
         (calls (snd (get_token w))) = Raise e →
     build w =
       (Raise e,
        World (store w)
          (calls (snd (get_token w)) ++
           [project_request (OrderTicket.project_id (store w))]))) ∧
  (* _get_create_order_payload: a failure of reading the project *)
  (∀ w res token project_info e,
     fst (get_token w) = Ok res →
     getitem res "token" = Ok token →
     net (project_request (OrderTicket.project_id (store w)))
         (calls (snd (get_token w))) = Ok project_info →
     assemble json_dumps ev (store w) token project_info = Raise e →
     build w =
       (Raise e,
        World (store w)
          (calls (snd (get_token w)) ++
           [project_request (OrderTicket.project_id (store w))]))) ∧
  (* get_token: a failure of its round trip *)
  (∀ w e,
     is_Some (sessdata (OrderTicket.credential (store w))) →
     net (token_request (store w)) (calls w) = Raise e →
     get_token w =
       (Raise e, World (store w) (calls w ++ [token_request (store w)]))) ∧
  (* get_project_info and get_available_sessions: a failure of the
     round trip *)
  (∀ S (w : world S) project_id e,
     net (project_request project_id) (calls w) = Raise e →
     get_project_info net project_id w =
       (Raise e, World (store w) (calls w ++ [project_request project_id])) ∧
     get_available_sessions net project_id w =
       (Raise e, World (store w) (calls w ++ [project_request project_id]))) ∧
  (* get_available_sessions: a failure of reading the project *)
  (∀ S (w : world S) project_id project_info e,
     net (project_request project_id) (calls w) = Ok project_info →
     (sl <- getitem project_info "screen_list" ;;
      vs <- py_iter sl ;;
      session_loop vs [])%res = Raise e →
     get_available_sessions net project_id w =
       (Raise e, World (store w) (calls w ++ [project_request project_id]))) ∧
  (* get_all_buyer_info: a failure of its round trip *)
  (∀ S (w : world S) credential e,
     is_Some (sessdata credential) →
     net (buyer_request credential) (calls w) = Raise e →
     get_all_buyer_info net credential w =
       (Raise e, World (store w) (calls w ++ [buyer_request credential]))) ∧
  (* get_all_buyer_info_obj: any failure of get_all_buyer_info *)
  (∀ S (w : world S) credential e,
     fst (get_all_buyer_info net credential w) = Raise e →
     get_all_buyer_info_obj net credential w =
       (Raise e, snd (get_all_buyer_info net credential w))) ∧
  (* get_all_buyer_info_obj: a failure of reading the response *)
  (∀ S (w : world S) credential res e,
     fst (get_all_buyer_info net credential w) = Ok res →
     (l <- getitem res "list" ;;
      vs <- py_iter l ;;
      buyer_loop vs)%res = Raise e →
     get_all_buyer_info_obj net credential w =
       (Raise e, snd (get_all_buyer_info net credential w))).
Proof.
  intros get_token build create_order. subst get_token build create_order.
  assert (∀ w e,
            fst (OrderTicket.get_token net w) = Raise e →
            OrderTicket._get_create_order_payload net json_dumps ev w =
              (Raise e, snd (OrderTicket.get_token net w))) as Hbuild_token.
  { intros w e Htoken. rewrite _get_create_order_payload_run. cbv zeta.
    destruct (OrderTicket.get_token net w) as [[res|e0] w1]; simpl in *;
      congruence. }
  assert (∀ w e,
            fst (OrderTicket._get_create_order_payload net json_dumps ev w) =
              Raise e →
            OrderTicket.create_order net json_dumps ev w =
              (Raise e,
               snd (OrderTicket._get_create_order_payload net json_dumps ev w)))
    as Hcreate_build.
  { intros w e Hbuild. rewrite create_order_run.
    destruct (OrderTicket._get_create_order_payload net json_dumps ev w)
      as [[payload|e0] w1]; simpl in *; congruence. }
  repeat apply conj.
  - intros w e Htoken.
    pose proof (Hbuild_token w e Htoken) as Hbuild.
    assert (OrderTicket.create_order net json_dumps ev w =
              (Raise e, snd (OrderTicket.get_token net w))) as Horder.
    { rewrite (Hcreate_build w e); by rewrite Hbuild. }
    split; [done|].
    destruct (get_token_performs net w) as (trips & Hlog & Hprefix & _).
    exists trips. unfold round_trips in *. rewrite Horder. split; [done|].
    destruct Hprefix as [rest Hrest].
    destruct trips as [|rq [|rq' trips]]; simpl in Hrest; try done.
    constructor; [|done]. injection Hrest as Hapi _. congruence.
  - exact Hcreate_build.
  - intros w payload e Hbuild Hnet. rewrite create_order_run.
    pose proof (_get_create_order_payload_store net json_dumps ev w) as Hstore.
    destruct (OrderTicket._get_create_order_payload net json_dumps ev w)
      as [[payload0|e0] w1]; simpl in *; [|done].
    injection Hbuild as ->. rewrite Hstore. by rewrite Hnet.
  - exact Hbuild_token.
  - intros w res e Htoken Hkey. rewrite _get_create_order_payload_run.
    cbv zeta.
    destruct (OrderTicket.get_token net w) as [[res0|e0] w1]; simpl in *;
      [|done].
    injection Htoken as ->. by rewrite Hkey.
  - intros w res token e Htoken Hkey Hnet.
    rewrite _get_create_order_payload_run. cbv zeta.
    destruct (OrderTicket.get_token net w) as [[res0|e0] w1]; simpl in *;
      [|done].
    injection Htoken as ->. by rewrite Hkey, Hnet.
  - intros w res token project_info e Htoken Hkey Hnet Hread.
    rewrite _get_create_order_payload_run. cbv zeta.
    destruct (OrderTicket.get_token net w) as [[res0|e0] w1]; simpl in *;
      [|done].
    injection Htoken as ->. by rewrite Hkey, Hnet, Hread.
  - intros w e [sess Hsess] Hnet. by rewrite get_token_run, Hsess, Hnet.
  - intros S w project_id e Hnet. split.
    + unfold get_project_info, api_result. fold (project_request project_id).
      by rewrite Hnet.
    + by rewrite get_available_sessions_run, Hnet.
  - intros S w project_id project_info e Hnet Hread.
    by rewrite get_available_sessions_run, Hnet, Hread.
  - intros S w credential e [sess Hsess] Hnet.
    by rewrite get_all_buyer_info_run, Hsess, Hnet.
  - intros S w credential e Hraise.
    rewrite get_all_buyer_info_obj_run.
    rewrite get_all_buyer_info_run in Hraise |- *.
    destruct (sessdata credential); simpl in *; [|congruence].
    by rewrite Hraise.
  - intros S w credential res e Hres Hread.
    rewrite get_all_buyer_info_obj_run.
    rewrite get_all_buyer_info_run in Hres |- *.
    destruct (sessdata credential); simpl in *; [|done].
    by rewrite Hres, Hread.
Qed.

Lemma create_order_propagates_witness :
  OrderTicket.create_order Sample.down Sample.dumps Sample.clock
    (Sample.start Sample.order) =
    (Raise (NetworkException "connection reset"),
     snd (OrderTicket.get_token Sample.down (Sample.start Sample.order))) ∧
  fst (OrderTicket.create_order (Outage.at_endpoint InfoGet) Sample.dumps
         Sample.clock (Sample.start Sample.order)) =
    Raise (ResponseCodeException 100001) ∧
  fst (OrderTicket.create_order (Outage.at_endpoint OperateOrder) Sample.dumps
         Sample.clock (Sample.start Sample.order)) =
    Raise (ResponseCodeException 100001).
Proof.
  split; [|split].
  - exact (proj1 (proj1 (create_order_propagates Sample.down Sample.dumps
                           Sample.clock)
                    (Sample.start Sample.order)
                    (NetworkException "connection reset") eq_refl)).
  - pose proof (create_order_propagates (Outage.at_endpoint InfoGet)
                  Sample.dumps Sample.clock)
      as (_ & Hcreate & _ & _ & _ & Hproject & _).
    rewrite (Hcreate (Sample.start Sample.order)
               (ResponseCodeException 100001)); [reflexivity|].
    by rewrite (Hproject (Sample.start Sample.order)
                  (JDict [("token", JStr "tok")]) (JStr "tok")
                  (ResponseCodeException 100001) eq_refl eq_refl eq_refl).
  - pose proof (create_order_propagates (Outage.at_endpoint OperateOrder)
                  Sample.dumps Sample.clock)
      as (_ & _ & Hsubmit & _).
    by rewrite (Hsubmit (Sample.start Sample.order) _
                  (ResponseCodeException 100001) eq_refl eq_refl).
Defined.

(** ** Order payload *)

Lemma find_base_info_found elements info base :
  forallb has_module elements = true →
  base_info_of elements = Some base →
  find_base_info elements info = Ok base.
Proof.
  unfold base_info_of.
  induction elements as [|element rest IH]; simpl; [done|].
  intros Hmod Hfind. apply andb_true_iff in Hmod as [Hm Hrest].
  unfold has_module in Hm. unfold is_base_info in Hfind.
  destruct (getitem element "module") as [m|e]; [|done]. simpl.
  destruct (eq_str m "base_info"); [congruence | by apply IH].
Qed.

Lemma find_base_info_none elements info :
  base_info_of elements = None →
  (forallb has_module elements = true → find_base_info elements info = Ok info) ∧
  (∀ x, find_base_info elements info = Ok x → x = info).
Proof.
  unfold base_info_of.
  induction elements as [|element rest IH]; simpl; intros Hfind.
  - split; [done | congruence].
  - unfold is_base_info, has_module in *.
    destruct (getitem element "module") as [m|e]; simpl; [|by split].
    destruct (eq_str m "base_info"); [done|]. by apply IH.
Qed.

Lemma content_of_Some detail c :
  content_of detail = Some c → getitem detail "content" = Ok (JStr c).
Proof.
  unfold content_of.
  destruct (getitem detail "content") as [[| | | |s| |]|]; congruence.
Qed.

Lemma policy_line_str c :
  policy_line (JStr c) =
    Ok (str_contains "一人一证" c || str_contains "一单一证" c).
Proof. unfold policy_line. simpl. by destruct (str_contains "一人一证" c). Qed.

Lemma detail_loop_spec json_dumps buyer header details contents :
  mapM content_of details = Some contents →
  detail_loop json_dumps buyer header details =
    Ok (if requires_identity_document contents then
          <["buyer_info" :=
              JStr (json_dumps (JList [JDict (BuyerInfo.__dict__ buyer)]))]>
            header
        else
          <["tel" := BuyerInfo.tel buyer]>
            (<["buyer" := BuyerInfo.name buyer]> header)).
Proof.
  rewrite mapM_Some. intros Hall.
  induction Hall as [|detail c details contents Hc _ IH]; [done|].
  cbn [detail_loop requires_identity_document existsb].
  rewrite (content_of_Some _ _ Hc). cbn [rbind]. rewrite policy_line_str.
  cbn [rbind]. by destruct (_ || _).
Qed.

Lemma detail_loop_shapes json_dumps buyer header details payload :
  header !! "buyer_info" = None →
  header !! "buyer" = None →
  header !! "tel" = None →
  detail_loop json_dumps buyer header details = Ok payload →
  buyer_info_shape json_dumps buyer payload ∨ buyer_tel_shape buyer payload.
Proof.
  intros H1 H2 H3. induction details as [|detail details IH]; simpl; intros H.
  - right. injection H as <-. unfold buyer_tel_shape. by simplify_map_eq.
  - steps; [|by apply IH].
    left. unfold buyer_info_shape. by simplify_map_eq.
Qed.

Lemma header_of_fresh json_dumps ev self token :
  header_of json_dumps ev self token !! "buyer_info" = None ∧
  header_of json_dumps ev self token !! "buyer" = None ∧
  header_of json_dumps ev self token !! "tel" = None.
Proof. unfold header_of. simpl. by simplify_map_eq. Qed.

(** The two shapes exclude each other. *)
Lemma shapes_exclusive json_dumps buyer payload :
  buyer_info_shape json_dumps buyer payload ∨ buyer_tel_shape buyer payload →
  ¬ (is_Some (payload !! "buyer_info") ∧
     (is_Some (payload !! "buyer") ∨ is_Some (payload !! "tel"))).
Proof.
  intros [(H1 & H2 & H3) | (H1 & H2 & H3)] [[x Hx] [[y Hy] | [y Hy]]];
    congruence.
Qed.

(** C1: a payload of [_get_create_order_payload] has one of two shapes,
    never both: the key [buyer_info], holding the serialized one-element
    list of the whole buyer record, or the keys [buyer] and [tel],
    holding the buyer's name and phone.  On a project whose [base_info]
    element lists its details with their policy texts, the call returns
    and the shape is the first exactly when some text contains one of
    the two trigger substrings. *)
Theorem create_order_payload_shape net json_dumps ev (w : world OrderTicket.t) :
  let self := store w in
  let buyer := OrderTicket.target_buyer self in
  let run := fst (OrderTicket._get_create_order_payload net json_dumps ev w) in
  (∀ payload,
     run = Ok payload →
     (buyer_info_shape json_dumps buyer payload ∨ buyer_tel_shape buyer payload) ∧
     ¬ (is_Some (payload !! "buyer_info") ∧
        (is_Some (payload !! "buyer") ∨ is_Some (payload !! "tel")))) ∧
  (∀ res token project_info pd elements base details contents,
     is_Some (sessdata (OrderTicket.credential self)) →
     net (token_request self) (calls w) = Ok res →
     getitem res "token" = Ok token →
     net (project_request (OrderTicket.project_id self))
         (calls w ++ [token_request self]) = Ok project_info →
     getitem project_info "performance_desc" = Ok pd →
     getitem pd "list" = Ok (JList elements) →
     forallb has_module elements = true →
     base_info_of elements = Some base →
     getitem base "details" = Ok (JList details) →
     mapM content_of details = Some contents →
     ∃ payload,
       run = Ok payload ∧
       if requires_identity_document contents
       then buyer_info_shape json_dumps buyer payload
       else buyer_tel_shape buyer payload).
Proof.
  intros self buyer run. subst run. rewrite _get_create_order_payload_run.
  rewrite get_token_run. cbv zeta. fold self. split.
  - intros payload Hrun.
    assert (∃ token project_info,
              assemble json_dumps ev self token project_info = Ok payload)
      as (token & project_info & Hpayload).
    { destruct (sessdata (OrderTicket.credential self)); [|done].
      destruct (net (token_request self) (calls w)) as [res|e]; [|done].
      destruct (getitem res "token") as [token|e]; [|done]. simpl in Hrun.
      destruct (net _ _) as [project_info|e]; [eauto | done]. }
    unfold assemble in Hpayload. steps.
    destruct (header_of_fresh json_dumps ev self token) as (H1 & H2 & H3).
    pose proof (detail_loop_shapes _ _ _ _ _ H1 H2 H3 Hpayload) as Hshape.
    split; [exact Hshape | by eapply shapes_exclusive].
  - intros res token project_info pd elements base details contents
      [sess Hsess] Hres Htoken Hinfo Hpd Hlist Hmod Hbase Hdetails Hcontents.
    rewrite Hsess, Hres, Htoken. simpl. rewrite Hinfo.
    unfold assemble. rewrite Hpd. cbn [rbind]. rewrite Hlist. cbn [rbind py_iter].
    rewrite (find_base_info_found _ _ _ Hmod Hbase). cbn [rbind].
    rewrite Hdetails. cbn [rbind py_iter].
    rewrite (detail_loop_spec _ _ _ _ _ Hcontents).
    destruct (header_of_fresh json_dumps ev self token) as (H1 & H2 & H3).
    eexists. split; [reflexivity|].
    destruct (requires_identity_document contents).
    + unfold buyer_info_shape. by simplify_map_eq.
    + unfold buyer_tel_shape. by simplify_map_eq.
Qed.

Lemma create_order_payload_shape_witness :
  ∃ payload,
    fst (OrderTicket._get_create_order_payload (Sample.serve Sample.project)
           Sample.dumps Sample.clock (Sample.start Sample.order)) = Ok payload ∧
    buyer_info_shape Sample.dumps Sample.buyer payload.
Proof.
  exact (proj2 (create_order_payload_shape (Sample.serve Sample.project)
                  Sample.dumps Sample.clock (Sample.start Sample.order))
           _ _ Sample.project _ _ _ _ _
           (mk_is_Some _ _ eq_refl) eq_refl eq_refl eq_refl eq_refl eq_refl
           eq_refl eq_refl eq_refl eq_refl).
Defined.

(** The other branch: a project without the rule gets the plain
    fields. *)
Example create_order_payload_plain :
  ∃ payload,
    fst (OrderTicket._get_create_order_payload
           (Sample.serve Sample.open_project) Sample.dumps Sample.clock
           (Sample.start Sample.order)) = Ok payload ∧
    buyer_tel_shape Sample.buyer payload.
Proof.
  exact (proj2 (create_order_payload_shape (Sample.serve Sample.open_project)
                  Sample.dumps Sample.clock (Sample.start Sample.order))
           _ _ Sample.open_project _ _ _ _ _
           (mk_is_Some _ _ eq_refl) eq_refl eq_refl eq_refl eq_refl eq_refl
           eq_refl eq_refl eq_refl eq_refl).
Qed.

(** C10: when no element of [performance_desc.list] has the module
    ["base_info"], [_get_create_order_payload] raises and builds neither
    payload; on a list whose elements all name their module, reached
    with a token, the exception is the [TypeError] of indexing that list
    with ['details']. *)
Theorem payload_without_base_info_raises net json_dumps ev
    (w : world OrderTicket.t) project_info pd elements :
  let self := store w in
  net (project_request (OrderTicket.project_id self))
      (calls w ++ [token_request self]) = Ok project_info →
  getitem project_info "performance_desc" = Ok pd →
  getitem pd "list" = Ok (JList elements) →
  base_info_of elements = None →
  ∃ e,
    fst (OrderTicket._get_create_order_payload net json_dumps ev w) = Raise e ∧
    (∀ res token,
       is_Some (sessdata (OrderTicket.credential self)) →
       net (token_request self) (calls w) = Ok res →
       getitem res "token" = Ok token →
       forallb has_module elements = true →
       e = TypeError).
Proof.
  intros self Hinfo Hpd Hlist Hnone.
  rewrite _get_create_order_payload_run, get_token_run. cbv zeta. fold self.
  destruct (find_base_info_none elements (JList elements) Hnone) as [Hall Hstay].
  destruct (sessdata (OrderTicket.credential self)) as [sess|].
  2: { eexists. split; [reflexivity|]. by intros ? ? [? ?]. }
  destruct (net (token_request self) (calls w)) as [res|e].
  2: { eexists. split; [reflexivity | congruence]. }
  destruct (getitem res "token") as [token|e] eqn:Htoken.
  2: { eexists. split; [reflexivity | intros; simplify_eq; congruence]. }
  simpl. rewrite Hinfo. unfold assemble.
  rewrite Hpd. cbn [rbind]. rewrite Hlist. cbn [rbind py_iter].
  destruct (find_base_info elements (JList elements)) as [x|e] eqn:Hfind.
  - rewrite (Hstay x eq_refl). simpl. eauto.
  - simpl. eexists. split; [reflexivity|].
    intros _ _ _ _ _ Hmod. specialize (Hall Hmod). congruence.
Qed.

Lemma payload_without_base_info_raises_witness :
  fst (OrderTicket._get_create_order_payload
         (Sample.serve Sample.bare_project) Sample.dumps Sample.clock
         (Sample.start Sample.order)) = Raise TypeError.
Proof.
  destruct (payload_without_base_info_raises (Sample.serve Sample.bare_project)
              Sample.dumps Sample.clock (Sample.start Sample.order)
              Sample.bare_project _ _ eq_refl eq_refl eq_refl eq_refl)
    as (e & Hraise & Hwhich).
  rewrite Hraise. f_equal.
  exact (Hwhich _ _ (mk_is_Some _ _ eq_refl) eq_refl eq_refl eq_refl).
Defined.

(** * Further properties *)

(** ** The identity record and its dataclass *)

(** X1: building a [BuyerInfo] from the [__dict__] of a [BuyerInfo]
    gives that record back: the constructor and [__dict__] are inverse
    on records. *)
Theorem BuyerInfo_round_trip (b : BuyerInfo.t) :
  BuyerInfo.new (JDict (BuyerInfo.__dict__ b)) = Ok b.
Proof. by destruct b. Qed.

Lemma kwarg_Raise d key e : BuyerInfo.kwarg d key = Raise e → e = TypeError.
Proof. unfold BuyerInfo.kwarg. destruct (dict_get key d); congruence. Qed.

Lemma BuyerInfo_new_TypeError v e : BuyerInfo.new v = Raise e → e = TypeError.
Proof.
  unfold BuyerInfo.new. destruct v as [| | | | | |d]; try congruence.
  destruct (forallb _ d); [|congruence].
  repeat match goal with
         | |- rbind (BuyerInfo.kwarg ?d ?key) _ = Raise _ → _ =>
             let H := fresh "H" in
             destruct (BuyerInfo.kwarg d key) eqn:H; cbn [rbind];
             [|intros [= <-]; by eapply kwarg_Raise]
         end.
  done.
Qed.

Lemma BuyerInfo_new_wf v b : BuyerInfo.new v = Ok b → buyer_wf v = true.
Proof.
  unfold BuyerInfo.new, buyer_wf. destruct v as [| | | | | |d]; try done.
  destruct (forallb _ d) eqn:Hkeys; [|done].
  intros H. steps.
  repeat match goal with
         | H : BuyerInfo.kwarg _ _ = Ok _ |- _ => apply kwarg_Ok in H
         end.
  rewrite andb_true_r. unfold has_keys, BuyerInfo.required.
  cbn [forallb]. rewrite !andb_true_iff.
  repeat split; try done; by apply bool_decide_eq_true.
Qed.

(** X2: the constructor accepts exactly the [dict]s that have every
    field without a default and no key that is not a field; on every
    other value it raises [TypeError], never another exception. *)
Theorem BuyerInfo_new_cases (v : json) :
  match BuyerInfo.new v with
  | Ok b => buyer_wf v = true ∧ buyer_of v b
  | Raise e => buyer_wf v = false ∧ e = TypeError
  end.
Proof.
  destruct (BuyerInfo.new v) as [b|e] eqn:Hnew.
  - split; [by eapply BuyerInfo_new_wf | by apply BuyerInfo_new_spec].
  - split; [|by eapply BuyerInfo_new_TypeError].
    destruct (buyer_wf v) eqn:Hwf; [|done].
    destruct (BuyerInfo_new_total v Hwf) as [b Hb]. congruence.
Qed.

Lemma buyer_loop_TypeError vs :
  forallb buyer_wf vs = false → buyer_loop vs = Raise TypeError.
Proof.
  induction vs as [|v vs IH]; simpl; [done|].
  pose proof (BuyerInfo_new_cases v) as Hv.
  destruct (BuyerInfo.new v) as [b|e]; destruct Hv as [Hwf Hv]; rewrite Hwf.
  - simpl. intros Hvs. by rewrite (IH Hvs).
  - intros _. by subst e.
Qed.

(** X3: [get_all_buyer_info_obj] is all or nothing: when one element of
    the response's list is not accepted by [BuyerInfo] (a key that is no
    field, a field without default missing, a value that is no [dict]),
    the call raises [TypeError] after its one round trip and no record
    of the other elements is returned. *)
Theorem get_all_buyer_info_obj_all_or_nothing {S} net credential
    (w : world S) res elements :
  is_Some (sessdata credential) →
  net (buyer_request credential) (calls w) = Ok res →
  getitem res "list" = Ok (JList elements) →
  forallb buyer_wf elements = false →
  get_all_buyer_info_obj net credential w =
    (Raise TypeError, World (store w) (calls w ++ [buyer_request credential])).
Proof.
  intros [sess Hsess] Hnet Hlist Hbad.
  rewrite get_all_buyer_info_obj_run, Hsess, Hnet, Hlist. cbn [rbind py_iter].
  by rewrite (buyer_loop_TypeError _ Hbad).
Qed.

Lemma get_all_buyer_info_obj_all_or_nothing_witness :
  get_all_buyer_info_obj
    (Edge.serve Sample.project Edge.identities Edge.token) Sample.cred
    (Sample.start tt) =
    (Raise TypeError, World tt [buyer_request Sample.cred]).
Proof.
  exact (get_all_buyer_info_obj_all_or_nothing
           (Edge.serve Sample.project Edge.identities Edge.token) Sample.cred
           (Sample.start tt) Edge.identities
           [Sample.identity; Edge.extended_identity]
           (mk_is_Some _ _ eq_refl) eq_refl eq_refl eq_refl).
Defined.

(** ** The catalog and its missing fields *)

Lemma read_error_screen v e rest rtn_list :
  read_error screen_keys v = Some e →
  session_loop (v :: rest) rtn_list = Raise e.
Proof.
  destruct v as [| | | | | |d]; simpl; try (by intros [= <-]).
  unfold missing_key. simpl.
  destruct (dict_get "id" d); simpl; [|by intros [= <-]].
  destruct (dict_get "start_time" d); simpl; [|by intros [= <-]].
  destruct (dict_get "name" d); simpl; [|by intros [= <-]].
  destruct (dict_get "ticket_list" d); simpl; [done | by intros [= <-]].
Qed.

Lemma read_error_ticket t e rest sess_obj :
  read_error ticket_keys t = Some e →
  ticket_loop (t :: rest) sess_obj = Raise e.
Proof.
  destruct t as [| | | | | |d]; simpl; try (by intros [= <-]).
  unfold missing_key. simpl.
  destruct (dict_get "id" d); simpl; [|by intros [= <-]].
  destruct (dict_get "price" d); simpl; [|by intros [= <-]].
  destruct (dict_get "desc" d); simpl; [|by intros [= <-]].
  destruct (dict_get "sale_start" d); simpl; [|by intros [= <-]].
  destruct (dict_get "sale_end" d); simpl; [done | by intros [= <-]].
Qed.

Lemma ticket_loop_step t :
  ticket_wf t = true →
  ∃ k, ∀ rest sess_obj,
    ticket_loop (t :: rest) sess_obj = ticket_loop rest (Session.append sess_obj k).
Proof.
  unfold ticket_wf. intros Ht.
  destruct (has_keys_getitem _ _ "id" Ht) as [a1 H1]; [simpl; tauto|].
  destruct (has_keys_getitem _ _ "price" Ht) as [a2 H2]; [simpl; tauto|].
  destruct (has_keys_getitem _ _ "desc" Ht) as [a3 H3]; [simpl; tauto|].
  destruct (has_keys_getitem _ _ "sale_start" Ht) as [a4 H4]; [simpl; tauto|].
  destruct (has_keys_getitem _ _ "sale_end" Ht) as [a5 H5]; [simpl; tauto|].
  exists (Ticket.make a1 a2 a3 a4 a5). intros rest sess_obj.
  cbn [ticket_loop]. by rewrite H1, H2, H3, H4, H5.
Qed.

Lemma ticket_loop_raise tpre t tpost e sess_obj :
  forallb ticket_wf tpre = true →
  read_error ticket_keys t = Some e →
  ticket_loop (tpre ++ t :: tpost) sess_obj = Raise e.
Proof.
  revert sess_obj. induction tpre as [|t0 tpre IH]; intros sess_obj Hpre Ht.
  - by apply read_error_ticket.
  - simpl in Hpre. apply andb_true_iff in Hpre as [Ht0 Hpre].
    destruct (ticket_loop_step t0 Ht0) as [k Hk].
    rewrite <- app_comm_cons, Hk. by apply IH.
Qed.

Lemma session_loop_raise pre v post e rtn_list :
  forallb screen_wf pre = true →
  (∀ rest acc, session_loop (v :: rest) acc = Raise e) →
  session_loop (pre ++ v :: post) rtn_list = Raise e.
Proof.
  revert rtn_list. induction pre as [|v0 pre IH]; intros rtn_list Hpre Hv.
  - apply Hv.
  - simpl in Hpre. apply andb_true_iff in Hpre as [Hv0 Hpre].
    rewrite <- app_comm_cons.
    destruct (session_loop_total [v0] rtn_list) as [out Hout];
      [by rewrite forallb_forall in *; intros ? [<-|[]]|].
    cbn [session_loop] in Hout |- *.
    destruct (getitem v0 "id") as [a1|]; [|done]. cbn [rbind] in *.
    destruct (getitem v0 "start_time") as [a2|]; [|done]. cbn [rbind] in *.
    destruct (getitem v0 "name") as [a3|]; [|done]. cbn [rbind] in *.
    destruct (getitem v0 "ticket_list") as [tl|]; [|done]. cbn [rbind] in *.
    destruct (py_iter tl) as [ts|]; [|done]. cbn [rbind] in *.
    destruct (ticket_loop ts _) as [s|]; [|done]. cbn [rbind] in *.
    by apply IH.
Qed.

(** X4: a screen that cannot be read stops [get_available_sessions]:
    when the screens before it are complete, the call raises the
    [KeyError] of the first of [id], [start_time], [name],
    [ticket_list] the screen lacks ([TypeError] when the screen is no
    [dict]), after its one round trip; the Sessions already built are
    not returned. *)
Theorem get_available_sessions_missing_field {S} net project_id (w : world S)
    project_info pre bad post e :
  net (project_request project_id) (calls w) = Ok project_info →
  getitem project_info "screen_list" = Ok (JList (pre ++ bad :: post)) →
  forallb screen_wf pre = true →
  read_error screen_keys bad = Some e →
  get_available_sessions net project_id w =
    (Raise e, World (store w) (calls w ++ [project_request project_id])).
Proof.
  intros Hnet Hsl Hpre Hbad.
  rewrite get_available_sessions_run, Hnet, Hsl. cbn [rbind py_iter].
  rewrite (session_loop_raise pre bad post e); [done | done |].
  intros rest acc. by apply read_error_screen.
Qed.

Lemma get_available_sessions_missing_field_witness :
  get_available_sessions
    (Edge.serve Edge.truncated_project Sample.identities Edge.token) 500
    (Sample.start tt) =
    (Raise (KeyError "ticket_list"), World tt [project_request 500]).
Proof.
  exact (get_available_sessions_missing_field
           (Edge.serve Edge.truncated_project Sample.identities Edge.token)
           500 (Sample.start tt) Edge.truncated_project
           [Sample.screen] Edge.truncated_screen [] _
           eq_refl eq_refl eq_refl eq_refl).
Defined.

(** X5: the same for a ticket: when a screen has its four fields and
    its [ticket_list] holds, after complete tickets, one that lacks a
    field, the call raises the [KeyError] of the first of [id],
    [price], [desc], [sale_start], [sale_end] it lacks ([TypeError]
    when the ticket is no [dict]). *)
Theorem get_available_sessions_missing_ticket_field {S} net project_id
    (w : world S) project_info pre v post tpre t tpost e :
  net (project_request project_id) (calls w) = Ok project_info →
  getitem project_info "screen_list" = Ok (JList (pre ++ v :: post)) →
  forallb screen_wf pre = true →
  has_keys screen_keys v = true →
  getitem v "ticket_list" = Ok (JList (tpre ++ t :: tpost)) →
  forallb ticket_wf tpre = true →
  read_error ticket_keys t = Some e →
  get_available_sessions net project_id w =
    (Raise e, World (store w) (calls w ++ [project_request project_id])).
Proof.
  intros Hnet Hsl Hpre Hv Htl Htpre Ht.
  rewrite get_available_sessions_run, Hnet, Hsl. cbn [rbind py_iter].
  rewrite (session_loop_raise pre v post e); [done | done |].
  intros rest acc. cbn [session_loop].
  destruct (has_keys_getitem _ _ "id" Hv) as [a1 ->]; [simpl; tauto|].
  destruct (has_keys_getitem _ _ "start_time" Hv) as [a2 ->]; [simpl; tauto|].
  destruct (has_keys_getitem _ _ "name" Hv) as [a3 ->]; [simpl; tauto|].
  rewrite Htl. cbn [rbind py_iter].
  by rewrite (ticket_loop_raise tpre t tpost e).
Qed.

Lemma get_available_sessions_missing_ticket_field_witness :
  get_available_sessions
    (Edge.serve Edge.priceless_project Sample.identities Edge.token) 500
    (Sample.start tt) =
    (Raise (KeyError "price"), World tt [project_request 500]).
Proof.
  exact (get_available_sessions_missing_ticket_field
           (Edge.serve Edge.priceless_project Sample.identities Edge.token)
           500 (Sample.start tt) Edge.priceless_project
           [] Edge.priceless_screen [] [Sample.vip] Edge.priceless_ticket [] _
           eq_refl eq_refl eq_refl eq_refl eq_refl eq_refl eq_refl).
Defined.

(** ** The order payload and its requests *)

Lemma detail_loop_cons json_dumps buyer header detail rest :
  detail_loop json_dumps buyer header (detail :: rest) =
    match detail_verdict detail with
    | Ok true => Ok (with_buyer_info json_dumps buyer header)
    | Ok false => detail_loop json_dumps buyer header rest
    | Raise e => Raise e
    end.
Proof.
  unfold detail_verdict. cbn [detail_loop].
  destruct (getitem detail "content") as [content|]; [|done]. cbn [rbind].
  by destruct (policy_line content) as [[|]|].
Qed.

Lemma detail_loop_either json_dumps buyer header details payload :
  detail_loop json_dumps buyer header details = Ok payload →
  (payload = with_buyer_info json_dumps buyer header ∧
   ∃ detail, detail ∈ details ∧ detail_verdict detail = Ok true) ∨
  (payload = with_buyer_tel buyer header ∧
   Forall (fun detail => detail_verdict detail = Ok false) details).
Proof.
  induction details as [|detail details IH].
  - intros [= <-]. right. by split.
  - rewrite detail_loop_cons.
    destruct (detail_verdict detail) as [[|]|] eqn:Hv; [| |done].
    + intros [= <-]. left. split; [done|]. exists detail. split; [by left | done].
    + intros H. destruct (IH H) as [[-> (d & Hd & Hd')] | [-> Hall]].
      * left. split; [done|]. exists d. split; [by right | done].
      * right. split; [done|]. by constructor.
Qed.

Lemma header_of_subseteq json_dumps ev self token buyer :
  header_of json_dumps ev self token ⊆
    with_buyer_info json_dumps buyer (header_of json_dumps ev self token) ∧
  header_of json_dumps ev self token ⊆
    with_buyer_tel buyer (header_of json_dumps ev self token).
Proof.
  destruct (header_of_fresh json_dumps ev self token) as (H1 & H2 & H3).
  unfold with_buyer_info, with_buyer_tel. split.
  - by apply insert_subseteq.
  - etrans; [by apply (insert_subseteq _ "buyer")|].
    apply insert_subseteq. by rewrite lookup_insert_ne.
Qed.

(** What a returning run of [_get_create_order_payload] went through. *)
Lemma _get_create_order_payload_Ok net json_dumps ev
    (w : world OrderTicket.t) payload :
  let self := store w in
  fst (OrderTicket._get_create_order_payload net json_dumps ev w) = Ok payload →
  ∃ res token project_info,
    net (token_request self) (calls w) = Ok res ∧
    getitem res "token" = Ok token ∧
    net (project_request (OrderTicket.project_id self))
        (calls w ++ [token_request self]) = Ok project_info ∧
    assemble json_dumps ev self token project_info = Ok payload ∧
    snd (OrderTicket._get_create_order_payload net json_dumps ev w) =
      World self
        (calls w ++
         [token_request self; project_request (OrderTicket.project_id self)]).
Proof.
  intros self. rewrite _get_create_order_payload_run, get_token_run.
  cbv zeta. fold self.
  destruct (sessdata (OrderTicket.credential self)); [|done].
  destruct (net (token_request self) (calls w)) as [res|] eqn:Hres; [|done].
  destruct (getitem res "token") as [token|] eqn:Htoken; [|done]. simpl.
  destruct (net (project_request _) _) as [project_info|] eqn:Hinfo; [|done].
  intros Hpayload. exists res, token, project_info.
  by rewrite <- app_assoc.
Qed.

(** X6: a payload that [_get_create_order_payload] returns is the
    ten-field header with either [buyer_info] or [buyer] and [tel]
    added, and no header field is overwritten by the addition: the
    payload still has the ticket's price as [pay_money], the object's
    project, screen and ticket ids, the clock reading and device id it
    was given, and as [token] the token of the token response. *)
Theorem payload_keeps_header net json_dumps ev (w : world OrderTicket.t)
    payload :
  let self := store w in
  let buyer := OrderTicket.target_buyer self in
  fst (OrderTicket._get_create_order_payload net json_dumps ev w) = Ok payload →
  ∃ res token,
    net (token_request self) (calls w) = Ok res ∧
    getitem res "token" = Ok token ∧
    header_of json_dumps ev self token ⊆ payload ∧
    (payload = with_buyer_info json_dumps buyer
                 (header_of json_dumps ev self token) ∨
     payload = with_buyer_tel buyer (header_of json_dumps ev self token)) ∧
    payload !! "pay_money" = Some (Ticket.price (OrderTicket.ticket self)) ∧
    payload !! "project_id" = Some (JInt (OrderTicket.project_id self)) ∧
    payload !! "screen_id" = Some (Session.id (OrderTicket.session self)) ∧
    payload !! "sku_id" = Some (Ticket.id (OrderTicket.ticket self)) ∧
    payload !! "timestamp" = Some (JInt (time_ms ev)) ∧
    payload !! "deviceId" = Some (JStr (deviceid ev)) ∧
    payload !! "token" = Some token.
Proof.
  intros self buyer Hrun.
  destruct (_get_create_order_payload_Ok _ _ _ _ _ Hrun)
    as (res & token & project_info & Hres & Htoken & _ & Hpayload & _).
  exists res, token. split; [done|]. split; [done|].
  unfold assemble in Hpayload. steps.
  destruct (header_of_subseteq json_dumps ev self token buyer) as [Hsub1 Hsub2].
  assert (header_of json_dumps ev self token ⊆ payload) as Hsub.
  { destruct (detail_loop_either _ _ _ _ _ Hpayload) as [[-> _] | [-> _]];
      done. }
  split; [done|]. split.
  { destruct (detail_loop_either _ _ _ _ _ Hpayload) as [[-> _] | [-> _]];
      [by left | by right]. }
  repeat split;
    (eapply lookup_weaken; [|exact Hsub]);
    unfold header_of; simpl; by simplify_map_eq.
Qed.

Lemma payload_keeps_header_witness :
  ∃ payload,
    fst (OrderTicket._get_create_order_payload (Sample.serve Sample.project)
           Sample.dumps Sample.clock (Sample.start Sample.order)) = Ok payload ∧
    payload !! "pay_money" = Some (JInt 100) ∧
    payload !! "token" = Some (JStr "tok").
Proof.
  eexists. split; [reflexivity|].
  destruct (payload_keeps_header (Sample.serve Sample.project) Sample.dumps
              Sample.clock (Sample.start Sample.order) _ eq_refl)
    as (res & token & Hres & Htoken & _ & _ & Hpay & _ & _ & _ & _ & _ & Htok).
  split; [exact Hpay|].
  injection Hres as <-. injection Htoken as <-. exact Htok.
Defined.

(** X7: when the token response is a [dict] without the key [token],
    [_get_create_order_payload] raises [KeyError] for that key right
    after the token round trip: the project information is not
    fetched, and [create_order] raises the same and submits nothing. *)
Theorem token_missing_stops_order net json_dumps ev (w : world OrderTicket.t) d :
  let self := store w in
  is_Some (sessdata (OrderTicket.credential self)) →
  net (token_request self) (calls w) = Ok (JDict d) →
  dict_get "token" d = None →
  OrderTicket._get_create_order_payload net json_dumps ev w =
    (Raise (KeyError "token"), World self (calls w ++ [token_request self])) ∧
  OrderTicket.create_order net json_dumps ev w =
    (Raise (KeyError "token"), World self (calls w ++ [token_request self])).
Proof.
  intros self [sess Hsess] Hres Hnone.
  assert (OrderTicket._get_create_order_payload net json_dumps ev w =
            (Raise (KeyError "token"),
             World self (calls w ++ [token_request self]))) as Hpayload.
  { rewrite _get_create_order_payload_run, get_token_run. cbv zeta.
    fold self. rewrite Hsess, Hres. simpl. by rewrite Hnone. }
  split; [done|]. by rewrite create_order_run, Hpayload.
Qed.

Lemma token_missing_stops_order_witness :
  OrderTicket.create_order
    (Edge.serve Sample.project Sample.identities Edge.refusal) Sample.dumps
    Sample.clock (Sample.start Sample.order) =
    (Raise (KeyError "token"),
     World Sample.order [token_request Sample.order]).
Proof.
  exact (proj2 (token_missing_stops_order
                  (Edge.serve Sample.project Sample.identities Edge.refusal)
                  Sample.dumps Sample.clock (Sample.start Sample.order)
                  [("errno", JInt 100001)]
                  (mk_is_Some _ _ eq_refl) eq_refl eq_refl)).
Defined.

(** X8: when [create_order] returns, its call log grew by exactly the
    token request, the project request and the order request carrying
    the payload that [_get_create_order_payload] built; what it returns
    is the transport's answer to that order request; and the order is
    for what the token was asked for: payload and token request agree
    on [order_type], [project_id], [screen_id] and [sku_id]. *)
Theorem create_order_requests net json_dumps ev (w : world OrderTicket.t) r :
  let self := store w in
  let trips := [token_request self;
                project_request (OrderTicket.project_id self)] in
  fst (OrderTicket.create_order net json_dumps ev w) = Ok r →
  ∃ payload,
    fst (OrderTicket._get_create_order_payload net json_dumps ev w) =
      Ok payload ∧
    calls (snd (OrderTicket.create_order net json_dumps ev w)) =
      calls w ++ trips ++ [order_request self payload] ∧
    net (order_request self payload) (calls w ++ trips) = Ok r ∧
    Forall (fun key => payload !! key = rq_data (token_request self) !! key)
           ["order_type"; "project_id"; "screen_id"; "sku_id"].
Proof.
  intros self trips Hrun. rewrite create_order_run in Hrun |- *.
  destruct (OrderTicket._get_create_order_payload net json_dumps ev w)
    as [[payload|e] w1] eqn:Hpayload; [|done].
  assert (fst (OrderTicket._get_create_order_payload net json_dumps ev w) =
            Ok payload) as Hfst by (by rewrite Hpayload).
  destruct (_get_create_order_payload_Ok _ _ _ _ _ Hfst)
    as (_ & _ & _ & _ & _ & _ & _ & Hw1).
  rewrite Hpayload in Hw1. simpl in Hw1. subst w1. simpl in Hrun |- *.
  exists payload. split; [done|]. split; [by rewrite <- app_assoc|].
  split; [done|].
  destruct (payload_keeps_header _ _ _ _ _ Hfst)
    as (_ & token & _ & _ & Hsub & _).
  repeat constructor;
    (eapply lookup_weaken; [|exact Hsub]);
    unfold header_of; simpl; by simplify_map_eq.
Qed.

Lemma create_order_requests_witness :
  ∃ payload,
    fst (OrderTicket._get_create_order_payload (Sample.serve Sample.project)
           Sample.dumps Sample.clock (Sample.start Sample.order)) =
      Ok payload ∧
    calls (snd (OrderTicket.create_order (Sample.serve Sample.project)
                  Sample.dumps Sample.clock (Sample.start Sample.order))) =
      [token_request Sample.order; project_request 500;
       order_request Sample.order payload].
Proof.
  destruct (create_order_requests (Sample.serve Sample.project) Sample.dumps
              Sample.clock (Sample.start Sample.order) _ eq_refl)
    as (payload & Hpayload & Hlog & _).
  exists payload. split; [exact Hpayload | exact Hlog].
Defined.

(** ** The two loops of the order builder *)

Lemma find_base_info_prefix pre base post info :
  forallb passed_over pre = true →
  is_base_info base = true →
  find_base_info (pre ++ base :: post) info = Ok base.
Proof.
  intros Hpre Hbase. induction pre as [|element pre IH]; simpl in *.
  - unfold is_base_info in Hbase.
    destruct (getitem base "module") as [m|]; [|done]. simpl. by rewrite Hbase.
  - apply andb_true_iff in Hpre as [Hel Hpre]. unfold passed_over in Hel.
    apply andb_true_iff in Hel as [Hmod Hnot].
    unfold has_module, is_base_info in *.
    destruct (getitem element "module") as [m|]; [|done]. simpl.
    apply negb_true_iff in Hnot. rewrite Hnot. by apply IH.
Qed.

Lemma find_base_info_sound elements info x :
  find_base_info elements info = Ok x →
  base_info_of elements = Some x ∨
  (x = info ∧ forallb has_module elements = true).
Proof.
  unfold base_info_of.
  induction elements as [|element rest IH]; simpl.
  - intros [= <-]. by right.
  - unfold is_base_info, has_module.
    destruct (getitem element "module") as [m|]; [|done]. simpl.
    destruct (eq_str m "base_info"); [intros [= <-]; by left | exact IH].
Qed.

Lemma detail_loop_prefix json_dumps buyer header dpre rest :
  forallb says_no dpre = true →
  detail_loop json_dumps buyer header (dpre ++ rest) =
    detail_loop json_dumps buyer header rest.
Proof.
  induction dpre as [|detail dpre IH]; [done|].
  intros H. cbn [forallb] in H. apply andb_true_iff in H as [Hno Hpre].
  rewrite <- app_comm_cons, detail_loop_cons. unfold says_no in Hno.
  destruct (detail_verdict detail) as [[|]|]; try done. by apply IH.
Qed.

(** X9: a payload is only ever built from a [base_info] element.
    Whenever [_get_create_order_payload] returns, whatever the shape of
    the response, [performance_desc.list] had such an element and the
    first of them had [details]; the payload with [buyer_info] was
    chosen because one of those details tested positive, and the plain
    one because every detail tested negative. *)
Theorem payload_decided_by_base_info net json_dumps ev
    (w : world OrderTicket.t) payload :
  let self := store w in
  let buyer := OrderTicket.target_buyer self in
  fst (OrderTicket._get_create_order_payload net json_dumps ev w) = Ok payload →
  ∃ project_info pd lst elements base d details,
    net (project_request (OrderTicket.project_id self))
        (calls w ++ [token_request self]) = Ok project_info ∧
    getitem project_info "performance_desc" = Ok pd ∧
    getitem pd "list" = Ok lst ∧
    py_iter lst = Ok elements ∧
    base_info_of elements = Some base ∧
    getitem base "details" = Ok d ∧
    py_iter d = Ok details ∧
    (buyer_info_shape json_dumps buyer payload →
     ∃ detail, detail ∈ details ∧ detail_verdict detail = Ok true) ∧
    (buyer_tel_shape buyer payload →
     Forall (fun detail => detail_verdict detail = Ok false) details).
Proof.
  intros self buyer Hrun.
  destruct (_get_create_order_payload_Ok _ _ _ _ _ Hrun)
    as (res & token & project_info & _ & _ & Hinfo & Hpayload & _).
  fold self in Hinfo, Hpayload.
  unfold assemble in Hpayload.
  destruct (getitem project_info "performance_desc") as [pd|] eqn:Hpd; [|done].
  cbn [rbind] in Hpayload.
  destruct (getitem pd "list") as [lst|] eqn:Hlst; [|done].
  cbn [rbind] in Hpayload.
  destruct (py_iter lst) as [elements|] eqn:Helements; [|done].
  cbn [rbind] in Hpayload.
  destruct (find_base_info elements lst) as [base|] eqn:Hfind; [|done].
  cbn [rbind] in Hpayload.
  destruct (getitem base "details") as [d|] eqn:Hd; [|done].
  cbn [rbind] in Hpayload.
  destruct (py_iter d) as [details|] eqn:Hdetails; [|done].
  cbn [rbind] in Hpayload.
  exists project_info, pd, lst, elements, base, d, details.
  repeat (split; [done|]).
  assert (base_info_of elements = Some base) as Hbase.
  { destruct (find_base_info_sound _ _ _ Hfind) as [Hfound | [-> Hmod]];
      [done|].
    destruct lst as [| | | | | |d0]; try done.
    simpl in Helements. injection Helements as <-.
    destruct d0 as [|[k v] d0]; [done | done]. }
  split; [done|]. split; [done|]. split; [done|].
  destruct (header_of_fresh json_dumps ev self token) as (H1 & H2 & H3).
  destruct (detail_loop_either _ _ _ _ _ Hpayload)
    as [[-> Hhit] | [-> Hall]]; split; try done.
  - intros (_ & _ & Hnone). unfold with_buyer_info in Hnone.
    by rewrite lookup_insert_eq in Hnone.
  - intros (Hsome & _). unfold with_buyer_tel in Hsome.
    rewrite !lookup_insert_ne in Hsome by done. congruence.
Qed.

Lemma payload_decided_by_base_info_witness :
  ∃ project_info pd lst elements base d details,
    Sample.serve Sample.open_project (project_request 500)
      [token_request Sample.order] = Ok project_info ∧
    getitem project_info "performance_desc" = Ok pd ∧
    getitem pd "list" = Ok lst ∧
    py_iter lst = Ok elements ∧
    base_info_of elements = Some base ∧
    getitem base "details" = Ok d ∧
    py_iter d = Ok details.
Proof.
  destruct (payload_decided_by_base_info (Sample.serve Sample.open_project)
              Sample.dumps Sample.clock (Sample.start Sample.order) _ eq_refl)
    as (project_info & pd & lst & elements & base & d & details & H1 & H2 &
        H3 & H4 & H5 & H6 & H7 & _).
  exists project_info, pd, lst, elements, base, d, details.
  repeat split; assumption.
Defined.

(** X10: both loops stop at what decides them.  With the elements
    before the first [base_info] element naming other modules, and the
    details before some detail testing negative, that detail decides:
    if it tests positive the payload with [buyer_info] is returned, and
    if its test raises ([KeyError] for a detail without [content],
    [TypeError] for a content that is no text, list or [dict]) the call
    raises that.  The elements after the [base_info] element and the
    details after the deciding one are never read. *)
Theorem first_deciding_detail net json_dumps ev (w : world OrderTicket.t)
    res token project_info pd pre base post dpre detail dpost :
  let self := store w in
  let header := header_of json_dumps ev self token in
  let w' := World self
              (calls w ++
               [token_request self;
                project_request (OrderTicket.project_id self)]) in
  is_Some (sessdata (OrderTicket.credential self)) →
  net (token_request self) (calls w) = Ok res →
  getitem res "token" = Ok token →
  net (project_request (OrderTicket.project_id self))
      (calls w ++ [token_request self]) = Ok project_info →
  getitem project_info "performance_desc" = Ok pd →
  getitem pd "list" = Ok (JList (pre ++ base :: post)) →
  forallb passed_over pre = true →
  is_base_info base = true →
  getitem base "details" = Ok (JList (dpre ++ detail :: dpost)) →
  forallb says_no dpre = true →
  (detail_verdict detail = Ok true →
   OrderTicket._get_create_order_payload net json_dumps ev w =
     (Ok (with_buyer_info json_dumps (OrderTicket.target_buyer self) header),
      w')) ∧
  (∀ e, detail_verdict detail = Raise e →
        OrderTicket._get_create_order_payload net json_dumps ev w =
          (Raise e, w')).
Proof.
  intros self header w' [sess Hsess] Hres Htoken Hinfo Hpd Hlist Hpre Hbase
    Hdetails Hdpre.
  assert (OrderTicket._get_create_order_payload net json_dumps ev w =
            (match detail_verdict detail with
             | Ok true =>
                 Ok (with_buyer_info json_dumps
                       (OrderTicket.target_buyer self) header)
             | Ok false =>
                 detail_loop json_dumps (OrderTicket.target_buyer self)
                   header dpost
             | Raise e => Raise e
             end, w')) as Hrun.
  { rewrite _get_create_order_payload_run, get_token_run. cbv zeta.
    fold self. rewrite Hsess, Hres, Htoken. simpl. rewrite Hinfo.
    unfold assemble. rewrite Hpd. cbn [rbind]. rewrite Hlist.
    cbn [rbind py_iter]. rewrite (find_base_info_prefix _ _ _ _ Hpre Hbase).
    cbn [rbind]. rewrite Hdetails. cbn [rbind py_iter].
    rewrite (detail_loop_prefix _ _ _ _ _ Hdpre), detail_loop_cons.
    unfold w'. by rewrite <- app_assoc. }
  split.
  - intros Hv. by rewrite Hrun, Hv.
  - intros e Hv. by rewrite Hrun, Hv.
Qed.

Lemma first_deciding_detail_witness :
  fst (OrderTicket._get_create_order_payload
         (Edge.serve Edge.ragged_project Sample.identities Edge.token)
         Sample.dumps Sample.clock (Sample.start Sample.order)) =
    Ok (with_buyer_info Sample.dumps Sample.buyer
          (header_of Sample.dumps Sample.clock Sample.order (JStr "tok"))) ∧
  fst (OrderTicket._get_create_order_payload
         (Edge.serve Edge.untitled_project Sample.identities Edge.token)
         Sample.dumps Sample.clock (Sample.start Sample.order)) =
    Raise (KeyError "content").
Proof.
  split.
  - exact (f_equal fst
             (proj1 (first_deciding_detail
                       (Edge.serve Edge.ragged_project Sample.identities
                          Edge.token)
                       Sample.dumps Sample.clock (Sample.start Sample.order)
                       Edge.token (JStr "tok") Edge.ragged_project _
                       [JDict [("module", JStr "notice")]] _ [JNull]
                       [JDict [("content", JStr "约120分钟")]]
                       (JDict [("content", JStr "实名制：一单一证")]) [JNull]
                       (mk_is_Some _ _ eq_refl) eq_refl eq_refl eq_refl
                       eq_refl eq_refl eq_refl eq_refl eq_refl eq_refl)
                eq_refl)).
  - exact (f_equal fst
             (proj2 (first_deciding_detail
                       (Edge.serve Edge.untitled_project Sample.identities
                          Edge.token)
                       Sample.dumps Sample.clock (Sample.start Sample.order)
                       Edge.token (JStr "tok") Edge.untitled_project _
                       [] _ []
                       [JDict [("content", JStr "约120分钟")]]
                       (JDict [("title", JStr "入场")])
                       [JDict [("content", JStr "一人一证")]]
                       (mk_is_Some _ _ eq_refl) eq_refl eq_refl eq_refl
                       eq_refl eq_refl eq_refl eq_refl eq_refl eq_refl)
                _ eq_refl)).
Defined.
